(** * Prompt conversion of the edge runtime

    A shallow embedding of
    [packages/react/src/runtimes/edge/createEdgeRuntimeAPI.ts]:
    [convertToLanguageModelPrompt], [convertToLanguageModelMessage], the
    closure-based [assistantMessageSplitter], and the call options that
    [streamMessage] and [POST] build for the backend.

    The conversion runs on what [request.json()] delivers, so messages and
    parts are modelled as the runtime sees them: a role is a string, a part is
    a tagged record, a tool result is an optional JSON value.  Exceptions are
    an explicit completion type; the three buffers captured by the splitter's
    closures are an explicit state record. *)

From Stdlib Require Import PrimFloat.
From stdpp Require Import base list strings.

#[local] Set Warnings "-register-all".
#[local] Open Scope string_scope.
#[local] Open Scope list_scope.

(** ** JSON payloads *)

(** Tool arguments and tool results are typed [unknown] in the source; at run
    time they are the values a JSON parser builds.  Numbers are IEEE doubles. *)
Inductive JSValue : Type :=
| JNull
| JBool (b : bool)
| JNumber (x : float)
| JString (s : string)
| JArray (items : list JSValue)
| JObject (fields : list (string * JSValue)).

(** ECMAScript [ToBoolean] on a JSON value: [null], [false], [+0], [-0],
    [NaN] and the empty string are falsy, every array and object is truthy. *)
Definition ToBoolean (v : JSValue) : bool :=
  match v with
  | JNull => false
  | JBool b => b
  | JNumber x => negb (PrimFloat.eqb x 0%float || PrimFloat.is_nan x)
  | JString s => negb (String.eqb s "")
  | JArray _ => true
  | JObject _ => true
  end.

(** The test [if (o)] on an optional property ([result?: unknown]), where
    [None] is [undefined]. *)
Definition truthy (o : option JSValue) : bool :=
  match o with
  | None => false
  | Some v => ToBoolean v
  end.

(** ** Client messages ([CoreThreadMessage]) *)

Record TextContentPart : Type := { text : string }.

Record ToolCallContentPart : Type := {
  toolCallId : string;
  toolName : string;
  args : JSValue;
  result : option JSValue
}.

(** A content part, by its [type] tag.  [OtherPart] is a part whose tag is
    none of ["text"], ["image"], ["tool-call"]: the static types exclude it,
    the [default] branches of the source handle it. *)
Inductive ContentPart : Type :=
| TextPart (p : TextContentPart)
| ImagePart (image : string)
| ToolCallPart (p : ToolCallContentPart)
| OtherPart (type : string).

(** The property read [part.text]: [undefined] on a part without that field. *)
Definition part_text (p : ContentPart) : option string :=
  match p with
  | TextPart t => Some (text t)
  | _ => None
  end.

Record CoreThreadMessage : Type := {
  role : string;
  content : list ContentPart
}.

(** ** Prompt messages ([LanguageModelV1Message]) *)

(** The object [new URL(s)] builds, identified by its serialisation. *)
Record URL : Type := { href : string }.

Inductive LanguageModelV1UserPart : Type :=
| UserText (p : TextContentPart)
| UserImage (image : URL).

Inductive LanguageModelV1AssistantPart : Type :=
| AssistantText (p : TextContentPart)
| ToolCall (id name : string) (arguments : JSValue).

Record LanguageModelV1ToolResultPart : Type := {
  resultCallId : string;
  resultToolName : string;
  resultValue : JSValue
}.

(** The [content] of a system prompt message is whatever the source stores
    there: a string, or [undefined] ([None]) when it was read off a part
    that has no [text]. *)
Inductive LanguageModelV1Message : Type :=
| SystemMessage (content : option string)
| UserMessage (content : list LanguageModelV1UserPart)
| AssistantMessage (content : list LanguageModelV1AssistantPart)
| ToolMessage (content : list LanguageModelV1ToolResultPart).

Definition LanguageModelV1Prompt : Type := list LanguageModelV1Message.

(** ** Exceptions *)

(** One constructor per place where the conversion can throw. *)
Inductive Exception : Type :=
| InvalidURL (input : string)
    (* TypeError of [new URL(part.image)] *)
| UnsupportedContentPartType (type : string)
    (* Error(`Unspported content part type: ...`), user case *)
| UnhandledContentPartType (type : string)
    (* Error(`Unhandled content part type: ...`), assistant case *)
| UnknownMessageRole (role : string)
    (* Error(`Unknown message role: ...`) *)
| ReadOfUndefined (property : string).
    (* TypeError: cannot read properties of undefined *)

Inductive Completion (A : Type) : Type :=
| Return (a : A)
| Throw (e : Exception).
Arguments Return {A} a.
Arguments Throw {A} e.

#[global] Instance Completion_ret : MRet Completion := @Return.
#[global] Instance Completion_bind : MBind Completion :=
  λ A B f c, match c with Return a => f a | Throw e => Throw e end.

(** The part type tag as the source prints it in its error messages. *)
Definition part_type (p : ContentPart) : string :=
  match p with
  | TextPart _ => "text"
  | ImagePart _ => "image"
  | ToolCallPart _ => "tool-call"
  | OtherPart ty => ty
  end.

(** ** The assistant message splitter *)

(** The state captured by the closures of [assistantMessageSplitter]: the
    [stash] array and the [content] arrays of the current [assistantMessage]
    and [toolMessage] objects.  Both objects are replaced by fresh ones when
    they are stashed, so nothing is shared between the stash and the current
    buffers. *)
Record Splitter : Type := {
  stash : list LanguageModelV1Message;
  assistantMessage : list LanguageModelV1AssistantPart;
  toolMessage : list LanguageModelV1ToolResultPart
}.

Definition assistantMessageSplitter : Splitter :=
  {| stash := []; assistantMessage := []; toolMessage := [] |}.

(** The body of the [if] in [addTextContentPart]: push both current messages
    on the stash and start again with empty ones. *)
Definition rotate (s : Splitter) : Splitter :=
  {| stash := stash s ++ [AssistantMessage (assistantMessage s);
                          ToolMessage (toolMessage s)];
     assistantMessage := [];
     toolMessage := [] |}.

Definition addTextContentPart (part : TextContentPart) (s : Splitter) : Splitter :=
  let s' := if decide (0 < length (toolMessage s)) then rotate s else s in
  {| stash := stash s';
     assistantMessage := assistantMessage s' ++ [AssistantText part];
     toolMessage := toolMessage s' |}.

Definition addToolCallPart (part : ToolCallContentPart) (s : Splitter) : Splitter :=
  {| stash := stash s;
     assistantMessage :=
       assistantMessage s ++ [ToolCall (toolCallId part) (toolName part) (args part)];
     toolMessage :=
       match result part with
       | Some r =>
           if ToBoolean r
           then toolMessage s ++
                  [{| resultCallId := toolCallId part;
                      resultToolName := toolName part;
                      resultValue := r |}]
           else toolMessage s
       | None => toolMessage s
       end |}.

Definition getMessages (s : Splitter) : list LanguageModelV1Message :=
  if decide (0 < length (toolMessage s))
  then stash s ++ [AssistantMessage (assistantMessage s); ToolMessage (toolMessage s)]
  else stash s ++ [AssistantMessage (assistantMessage s)].

(** The [for ... of message.content] loop of the assistant case. *)
Fixpoint visitParts (parts : list ContentPart) (s : Splitter) : Completion Splitter :=
  match parts with
  | [] => Return s
  | TextPart p :: rest => visitParts rest (addTextContentPart p s)
  | ToolCallPart p :: rest => visitParts rest (addToolCallPart p s)
  | other :: _ => Throw (UnhandledContentPartType (part_type other))
  end.

(** ** The converter *)

(** [Array.prototype.flatMap] with a callback that may throw: the callback
    runs on the elements in order, the first exception aborts the call. *)
Fixpoint flatMap {A B : Type} (f : A → Completion (list B)) (l : list A)
  : Completion (list B) :=
  match l with
  | [] => Return []
  | x :: rest => ys ← f x; zs ← flatMap f rest; Return (ys ++ zs)
  end.

Section Converter.

(** [new URL(input)], a platform service: [None] when it throws. *)
Variable newURL : string → option URL.

(** The callback of [message.content.map] in the user case. *)
Definition convertUserPart (part : ContentPart) : Completion LanguageModelV1UserPart :=
  match part with
  | TextPart p => Return (UserText p)
  | ImagePart image =>
      match newURL image with
      | Some url => Return (UserImage url)
      | None => Throw (InvalidURL image)
      end
  | other => Throw (UnsupportedContentPartType (part_type other))
  end.

Definition convertToLanguageModelMessage (message : CoreThreadMessage)
  : Completion (list LanguageModelV1Message) :=
  if decide (role message = "system") then
    match content message !! 0%nat with
    | Some first => Return [SystemMessage (part_text first)]
    | None => Throw (ReadOfUndefined "text")
    end
  else if decide (role message = "user") then
    parts ← mapM convertUserPart (content message);
    Return [UserMessage parts]
  else if decide (role message = "assistant") then
    splitter ← visitParts (content message) assistantMessageSplitter;
    Return (getMessages splitter)
  else Throw (UnknownMessageRole (role message)).

Definition convertToLanguageModelPrompt
    (system : option string) (messages : list CoreThreadMessage)
  : Completion LanguageModelV1Prompt :=
  let languageModelMessages :=
    match system with
    | Some s => [SystemMessage (Some s)]
    | None => []
    end in
  converted ← flatMap convertToLanguageModelMessage messages;
  Return (languageModelMessages ++ converted).

End Converter.

(** ** The error taxonomy of the design *)

(** The three conversion errors the design names, and the throw site each
    one stands for.  A [TypeError] raised by reading a property of
    [undefined] is none of them. *)
Inductive ErrorKind : Type :=
| MalformedContent
| UnknownRole
| UnknownContentType.

Definition errorKind (e : Exception) : option ErrorKind :=
  match e with
  | InvalidURL _ => Some MalformedContent
  | UnsupportedContentPartType _ => Some UnknownContentType
  | UnhandledContentPartType _ => Some UnknownContentType
  | UnknownMessageRole _ => Some UnknownRole
  | ReadOfUndefined _ => None
  end.

(** ** Shapes of input and output used in the statements *)

(** The parts the static type of a user message allows. *)
Definition isUserPart (p : ContentPart) : bool :=
  match p with
  | TextPart _ | ImagePart _ => true
  | _ => false
  end.

(** The parts the static type of an assistant message allows. *)
Definition isAssistantPart (p : ContentPart) : bool :=
  match p with
  | TextPart _ | ToolCallPart _ => true
  | _ => false
  end.

Definition supportedRole (r : string) : bool :=
  bool_decide (r = "system") || bool_decide (r = "user") || bool_decide (r = "assistant").

(** [resolves calls r]: some tool-call entry of [calls] has the call id and
    the tool name of the result entry [r]. *)
Definition resolves (calls : list LanguageModelV1AssistantPart)
    (r : LanguageModelV1ToolResultPart) : bool :=
  existsb
    (λ c, match c with
          | ToolCall id name _ =>
              String.eqb id (resultCallId r) && String.eqb name (resultToolName r)
          | AssistantText _ => false
          end)
    calls.

(** A checker for the alternation of assistant and tool turns: walking the
    prompt with the previous message at hand, every tool message must come
    right after an assistant message that holds a call for each of its
    entries. *)
Fixpoint toolTurnsFollow (prev : option LanguageModelV1Message)
    (prompt : list LanguageModelV1Message) : bool :=
  match prompt with
  | [] => true
  | m :: rest =>
      match m with
      | ToolMessage results =>
          match prev with
          | Some (AssistantMessage calls) => forallb (resolves calls) results
          | _ => false
          end
      | _ => true
      end && toolTurnsFollow (Some m) rest
  end.

(** The invariant of the splitter: the stash is a well-formed prompt, and
    every entry of the tool buffer answers a call of the assistant
    buffer. *)
Definition splitterInvariant (s : Splitter) : Prop :=
  toolTurnsFollow None (stash s) = true ∧
  forallb (resolves (assistantMessage s)) (toolMessage s) = true.

(** [userPartConverts newURL p q]: [q] is what the user case makes of [p]. *)
Definition userPartConverts (newURL : string → option URL)
    (p : ContentPart) (q : LanguageModelV1UserPart) : Prop :=
  match p with
  | TextPart t => q = UserText t
  | ImagePart image => ∃ url, newURL image = Some url ∧ q = UserImage url
  | _ => False
  end.

(** Concatenation of separately computed results, in order; the first
    exception wins. *)
Fixpoint concatCompletions {A : Type} (cs : list (Completion (list A)))
  : Completion (list A) :=
  match cs with
  | [] => Return []
  | c :: rest => ys ← c; zs ← concatCompletions rest; Return (ys ++ zs)
  end.

(** One turn of the loop on a part of the assistant type. *)
Definition addPart (s : Splitter) (p : ContentPart) : Splitter :=
  match p with
  | TextPart t => addTextContentPart t s
  | ToolCallPart c => addToolCallPart c s
  | _ => s
  end.

(** ** Sample inputs *)

Definition textPart (s : string) : ContentPart := TextPart {| text := s |}.

Definition toolCallPart (id name : string) (a : JSValue) (r : option JSValue)
  : ContentPart :=
  ToolCallPart {| toolCallId := id; toolName := name; args := a; result := r |}.

Definition assistantOf (parts : list ContentPart) : CoreThreadMessage :=
  {| role := "assistant"; content := parts |}.

Definition userOf (parts : list ContentPart) : CoreThreadMessage :=
  {| role := "user"; content := parts |}.

(** A completed call of a counting tool whose result is the number zero. *)
Definition countCall : ToolCallContentPart :=
  {| toolCallId := "A";
     toolName := "count";
     args := JObject [("q", JString "x")];
     result := Some (JNumber 0%float) |}.

(** A completed call whose result is a non-empty string. *)
Definition searchCall : ToolCallContentPart :=
  {| toolCallId := "B";
     toolName := "search";
     args := JObject [("q", JString "x")];
     result := Some (JString "42") |}.

(** A stand-in for the platform's URL parser on the sample inputs: it accepts
    the strings that start with [https://]. *)
Definition httpsURL (input : string) : option URL :=
  if String.prefix "https://" input then Some {| href := input |} else None.

(** ** Views of a prompt *)

(** The [role] field of a prompt message. *)
Definition promptRole (m : LanguageModelV1Message) : string :=
  match m with
  | SystemMessage _ => "system"
  | UserMessage _ => "user"
  | AssistantMessage _ => "assistant"
  | ToolMessage _ => "tool"
  end.

(** The content of a message if it is an assistant message, nothing
    otherwise; likewise for tool messages. *)
Definition assistantContent (m : LanguageModelV1Message)
  : list LanguageModelV1AssistantPart :=
  match m with
  | AssistantMessage parts => parts
  | _ => []
  end.

Definition toolContent (m : LanguageModelV1Message)
  : list LanguageModelV1ToolResultPart :=
  match m with
  | ToolMessage results => results
  | _ => []
  end.

(** The entry [addTextContentPart] or [addToolCallPart] pushes on the
    assistant buffer for a part. *)
Definition assistantEntry (p : ContentPart) : option LanguageModelV1AssistantPart :=
  match p with
  | TextPart t => Some (AssistantText t)
  | ToolCallPart c => Some (ToolCall (toolCallId c) (toolName c) (args c))
  | _ => None
  end.

(** The entry [addToolCallPart] pushes on the tool buffer for a part, if it
    pushes one. *)
Definition toolResultEntry (p : ContentPart) : option LanguageModelV1ToolResultPart :=
  match p with
  | ToolCallPart c =>
      match result c with
      | Some r =>
          if ToBoolean r
          then Some {| resultCallId := toolCallId c;
                       resultToolName := toolName c;
                       resultValue := r |}
          else None
      | None => None
      end
  | _ => None
  end.

Definition isTextPart (p : ContentPart) : bool :=
  match p with
  | TextPart _ => true
  | _ => false
  end.

Definition isToolCallPart (p : ContentPart) : bool :=
  match p with
  | ToolCallPart _ => true
  | _ => false
  end.

(** A checker for strict alternation: assistant and tool messages take
    turns, [expectAssistant] telling whose turn it is, and no other message
    occurs. *)
Fixpoint rolesAlternate (expectAssistant : bool)
    (prompt : list LanguageModelV1Message) : bool :=
  match prompt with
  | [] => true
  | m :: rest =>
      match m with
      | AssistantMessage _ => expectAssistant
      | ToolMessage _ => negb expectAssistant
      | _ => false
      end && rolesAlternate (negb expectAssistant) rest
  end.

(** No tool message of the prompt is empty. *)
Definition noEmptyToolMessage (prompt : list LanguageModelV1Message) : bool :=
  forallb (λ m, match m with ToolMessage [] => false | _ => true end) prompt.

(** The messages a conversation message may turn into, by role: its own
    role, and [tool] next to [assistant]. *)
Definition roleAllowed (source : string) (m : LanguageModelV1Message) : bool :=
  bool_decide (promptRole m = source) ||
  (bool_decide (source = "assistant") && bool_decide (promptRole m = "tool")).

(** An assistant message with completed and falsy-result calls and text
    in between. *)
Definition sampleAssistant : CoreThreadMessage :=
  assistantOf [ToolCallPart searchCall; textPart "x";
               ToolCallPart countCall; ToolCallPart searchCall; textPart "y"].

(** The number of text parts of a content list. *)
Definition countTextParts (parts : list ContentPart) : nat :=
  length (List.filter isTextPart parts).

(** The parts the user case converts without an exception. *)
Definition userPartAccepted (newURL : string → option URL) (p : ContentPart) : bool :=
  match p with
  | TextPart _ => true
  | ImagePart image => bool_decide (is_Some (newURL image))
  | _ => false
  end.

(** The exception the user case throws for a part it does not accept. *)
Definition userPartException (p : ContentPart) : Exception :=
  match p with
  | ImagePart image => InvalidURL image
  | other => UnsupportedContentPartType (part_type other)
  end.

(** The number of messages the preamble contributes to the prompt. *)
Definition preambleLength (system : option string) : nat :=
  match system with
  | Some _ => 1
  | None => 0
  end.

(** A conversation with all three roles. *)
Definition sampleConversation : list CoreThreadMessage :=
  [ {| role := "system"; content := [textPart "be terse"] |};
    userOf [textPart "hi"; ImagePart "https://example.com/cat.png"];
    sampleAssistant;
    userOf [textPart "thanks"] ].

(** The prompt of the sample conversation with the preamble ["be terse"]. *)
Definition samplePrompt : LanguageModelV1Prompt :=
  Eval vm_compute in
    match convertToLanguageModelPrompt httpsURL (Some "be terse") sampleConversation with
    | Return prompt => prompt
    | Throw _ => []
    end.

(** ** The call handed to the backend *)

(** The [mode] object [streamMessage] builds. *)
Record Mode : Type := {
  modeType : string;
  modeTools : option JSValue;
  modeToolChoice : option JSValue
}.

(** The argument of [model.doStream].  [callSettings] is the rest object
    [...options], spread last; its static type has none of the three keys
    written before it. *)
Record CallOptions (Settings : Type) : Type := {
  inputFormat : string;
  mode : Mode;
  prompt : LanguageModelV1Prompt;
  callSettings : Settings
}.
Arguments inputFormat {Settings} _.
Arguments mode {Settings} _.
Arguments prompt {Settings} _.
Arguments callSettings {Settings} _.

(** The spread [...(v ? { v } : undefined)]: the key is set when [v] is
    truthy, and absent otherwise. *)
Definition spreadIfTruthy (v : option JSValue) : option JSValue :=
  if truthy v then v else None.

(** [streamMessage] up to its call of [model.doStream]: the argument it
    builds for the backend, or the exception thrown while building it (the
    backend is then not called).  What the backend does with the call, and
    the encoding of the stream it returns, belong to collaborators. *)
Definition streamMessageCallOptions {Settings : Type}
    (newURL : string → option URL)
    (system : option string) (messages : list CoreThreadMessage)
    (tools toolChoice : option JSValue) (options : Settings)
  : Completion (CallOptions Settings) :=
  converted ← convertToLanguageModelPrompt newURL system messages;
  Return {| inputFormat := "messages";
            mode := {| modeType := "regular";
                       modeTools := spreadIfTruthy tools;
                       modeToolChoice := spreadIfTruthy toolChoice |};
            prompt := converted;
            callSettings := options |}.

(** The parsed request body [{ system, messages, tools }]. *)
Record RequestBody : Type := {
  bodySystem : option string;
  bodyMessages : list CoreThreadMessage;
  bodyTools : option JSValue
}.

(** [POST] up to the backend call: [streamMessage] gets the three fields of
    the body and the abort signal of the request, and no [toolChoice]. *)
Definition POSTCallOptions {AbortSignal : Type}
    (newURL : string → option URL) (body : RequestBody) (signal : AbortSignal)
  : Completion (CallOptions AbortSignal) :=
  streamMessageCallOptions newURL (bodySystem body) (bodyMessages body)
    (bodyTools body) None signal.

(** A request with the sample conversation and an empty tool list. *)
Definition sampleBody : RequestBody :=
  {| bodySystem := Some "be terse";
     bodyMessages := sampleConversation;
     bodyTools := Some (JArray []) |}.

(** The call built for [sampleBody]; a request has one abort signal, here
    the only value of [unit]. *)
Definition sampleCall : CallOptions unit :=
  {| inputFormat := "messages";
     mode := {| modeType := "regular";
                modeTools := Some (JArray []);
                modeToolChoice := None |};
     prompt := samplePrompt;
     callSettings := tt |}.

(** * Properties *)

(** ** The splitter, one step at a time *)

Section SplitterSteps.

Implicit Types (s : Splitter) (text : TextContentPart) (call : ToolCallContentPart).

(** A text part met while the tool buffer holds a result: the current pair
    goes to the stash and the text opens a fresh assistant buffer. *)
Lemma addTextContentPart_rotates text s :
  toolMessage s ≠ [] →
  addTextContentPart text s =
    {| stash := stash s ++ [AssistantMessage (assistantMessage s);
                            ToolMessage (toolMessage s)];
       assistantMessage := [AssistantText text];
       toolMessage := [] |}.
Proof.
  intros Hne. unfold addTextContentPart.
  destruct (decide _) as [_|Hlen]; [done|].
  destruct (toolMessage s); [done|simpl in Hlen; lia].
Qed.

(** A text part met while the tool buffer is empty only grows the current
    assistant buffer. *)
Lemma addTextContentPart_appends text s :
  toolMessage s = [] →
  addTextContentPart text s =
    {| stash := stash s;
       assistantMessage := assistantMessage s ++ [AssistantText text];
       toolMessage := [] |}.
Proof.
  intros Hnil. unfold addTextContentPart. rewrite Hnil. simpl.
  by rewrite Hnil.
Qed.

(** A tool call never touches the stash, whatever the tool buffer holds. *)
Lemma addToolCallPart_stash call s :
  stash (addToolCallPart call s) = stash s.
Proof. done. Qed.

(** A tool call always lands at the end of the current assistant buffer. *)
Lemma addToolCallPart_assistantMessage call s :
  assistantMessage (addToolCallPart call s) =
    assistantMessage s ++ [ToolCall (toolCallId call) (toolName call) (args call)].
Proof. done. Qed.

(** The result entry is pushed exactly when [part.result] is truthy. *)
Lemma addToolCallPart_toolMessage_truthy call s r :
  result call = Some r →
  ToBoolean r = true →
  toolMessage (addToolCallPart call s) =
    toolMessage s ++ [{| resultCallId := toolCallId call;
                         resultToolName := toolName call;
                         resultValue := r |}].
Proof. intros Hr Ht. simpl. by rewrite Hr, Ht. Qed.

Lemma addToolCallPart_toolMessage_falsy call s :
  truthy (result call) = false →
  toolMessage (addToolCallPart call s) = toolMessage s.
Proof.
  unfold truthy. simpl. destruct (result call) as [r|]; [|done].
  by intros ->.
Qed.

Lemma getMessages_pair s :
  toolMessage s ≠ [] →
  getMessages s =
    stash s ++ [AssistantMessage (assistantMessage s); ToolMessage (toolMessage s)].
Proof.
  intros Hne. unfold getMessages.
  destruct (decide _) as [_|Hlen]; [done|].
  destruct (toolMessage s); [done|simpl in Hlen; lia].
Qed.

Lemma getMessages_single s :
  toolMessage s = [] →
  getMessages s = stash s ++ [AssistantMessage (assistantMessage s)].
Proof. intros Hnil. unfold getMessages. by rewrite Hnil. Qed.

End SplitterSteps.

(** On parts of the assistant type the loop is a left fold of the two
    methods, and it does not throw. *)
Lemma visitParts_assistant parts s :
  forallb isAssistantPart parts = true →
  visitParts parts s = Return (foldl addPart s parts).
Proof.
  revert s. induction parts as [|p parts IH]; intros s Hall; [done|].
  simpl in Hall. apply andb_prop in Hall as [Hp Hrest].
  destruct p; try discriminate; simpl; by apply IH.
Qed.

(** ** Rotation on text (C1) *)

(** With two completed calls whose results are truthy, the text between
    them closes the first pair and opens the second. *)
Lemma rotation_between_truthy_results newURL idA nameA argsA rA x idB nameB argsB rB :
  ToBoolean rA = true →
  ToBoolean rB = true →
  convertToLanguageModelMessage newURL
    (assistantOf [toolCallPart idA nameA argsA (Some rA);
                  TextPart x;
                  toolCallPart idB nameB argsB (Some rB)]) =
  Return [AssistantMessage [ToolCall idA nameA argsA];
          ToolMessage [{| resultCallId := idA; resultToolName := nameA;
                          resultValue := rA |}];
          AssistantMessage [AssistantText x; ToolCall idB nameB argsB];
          ToolMessage [{| resultCallId := idB; resultToolName := nameB;
                          resultValue := rB |}]].
Proof.
  intros HA HB. unfold convertToLanguageModelMessage, assistantOf, toolCallPart.
  simpl. unfold addToolCallPart at 2. simpl. rewrite HA. simpl.
  unfold addToolCallPart. simpl. by rewrite HB.
Qed.

(** C1.  The message [[tool-call A (with result 0), text "x", tool-call B
    (with result "42")]] is converted to ONE pair, [(assistant: [A, "x", B],
    tool: [B-result])], not to the two pairs [(assistant: [A], tool:
    [A-result])], [(assistant: ["x", B], tool: [B-result])]: the result of A
    is falsy, [addToolCallPart] pushes no entry for it, so the tool buffer is
    still empty when the text arrives and [addTextContentPart] does not
    rotate. *)
Theorem rotation_missed_after_falsy_result :
  ∀ newURL,
    convertToLanguageModelMessage newURL
      (assistantOf [ToolCallPart countCall; textPart "x"; ToolCallPart searchCall]) =
    Return [AssistantMessage [ToolCall "A" "count" (JObject [("q", JString "x")]);
                              AssistantText {| text := "x" |};
                              ToolCall "B" "search" (JObject [("q", JString "x")])];
            ToolMessage [{| resultCallId := "B"; resultToolName := "search";
                            resultValue := JString "42" |}]] ∧
    convertToLanguageModelMessage newURL
      (assistantOf [ToolCallPart countCall; textPart "x"; ToolCallPart searchCall]) ≠
    Return [AssistantMessage [ToolCall "A" "count" (JObject [("q", JString "x")])];
            ToolMessage [{| resultCallId := "A"; resultToolName := "count";
                            resultValue := JNumber 0%float |}];
            AssistantMessage [AssistantText {| text := "x" |};
                              ToolCall "B" "search" (JObject [("q", JString "x")])];
            ToolMessage [{| resultCallId := "B"; resultToolName := "search";
                            resultValue := JString "42" |}]].
Proof. intros newURL. split; [reflexivity|discriminate]. Qed.

(** ** Tool calls (C2) *)

(** C2.  The completed call [countCall] carries the result [0]; visiting it
    appends the tool-call entry to the assistant buffer and leaves the tool
    buffer as it was: no tool-result entry (id, name, result) is appended
    for a falsy result. *)
Theorem addToolCallPart_drops_falsy_result :
  ∀ s : Splitter,
    result countCall = Some (JNumber 0%float) ∧
    assistantMessage (addToolCallPart countCall s) =
      assistantMessage s ++ [ToolCall "A" "count" (JObject [("q", JString "x")])] ∧
    toolMessage (addToolCallPart countCall s) = toolMessage s ∧
    toolMessage (addToolCallPart countCall s) ≠
      toolMessage s ++ [{| resultCallId := "A"; resultToolName := "count";
                           resultValue := JNumber 0%float |}].
Proof.
  intros s. split; [done|]. split; [done|]. split; [done|].
  simpl. intros Heq. apply (f_equal length) in Heq.
  rewrite length_app in Heq. simpl in Heq. lia.
Qed.

(** ** Finalization (C3) *)

(** C3.  [getMessages] returns the stash followed by the current assistant
    message, and by the current tool message when that one is not empty; two
    pending calls therefore give a single assistant message and no tool
    message. *)
Theorem getMessages_finalization :
  (∀ s : Splitter,
     getMessages s =
       match toolMessage s with
       | [] => stash s ++ [AssistantMessage (assistantMessage s)]
       | _ :: _ => stash s ++ [AssistantMessage (assistantMessage s)]
                           ++ [ToolMessage (toolMessage s)]
       end) ∧
  (∀ newURL idA nameA argsA idB nameB argsB,
     convertToLanguageModelMessage newURL
       (assistantOf [toolCallPart idA nameA argsA None;
                     toolCallPart idB nameB argsB None]) =
     Return [AssistantMessage [ToolCall idA nameA argsA; ToolCall idB nameB argsB]]).
Proof.
  split.
  - intros s. destruct (toolMessage s) as [|r rs] eqn:Hts.
    + by apply getMessages_single.
    + rewrite getMessages_pair, Hts; [done|by rewrite Hts].
  - done.
Qed.

(** ** Alternation of assistant and tool turns (C4) *)

Section Alternation.

Implicit Types (s : Splitter) (prompt : list LanguageModelV1Message).

Lemma resolves_app_l calls more r :
  resolves calls r = true → resolves (calls ++ more) r = true.
Proof. unfold resolves. rewrite existsb_app. by intros ->. Qed.

Lemma resolves_last calls id name a v :
  resolves (calls ++ [ToolCall id name a])
    {| resultCallId := id; resultToolName := name; resultValue := v |} = true.
Proof.
  unfold resolves. rewrite existsb_app. simpl.
  rewrite !String.eqb_refl. by rewrite orb_true_r.
Qed.

Lemma resolves_elem_of calls r :
  resolves calls r = true →
  ∃ a, ToolCall (resultCallId r) (resultToolName r) a ∈ calls.
Proof.
  unfold resolves. rewrite existsb_exists.
  intros ([p|id name a] & Hin & Hc); [done|].
  apply andb_prop in Hc as [Hid Hname].
  apply String.eqb_eq in Hid as <-. apply String.eqb_eq in Hname as <-.
  exists a. by apply list_elem_of_In.
Qed.

Lemma forallb_resolves_app_l calls more results :
  forallb (resolves calls) results = true →
  forallb (resolves (calls ++ more)) results = true.
Proof.
  rewrite !forallb_forall. intros H r Hr. by apply resolves_app_l, H.
Qed.

(** The checker splits at an assistant message: what comes before it is
    checked on its own. *)
Lemma toolTurnsFollow_app_assistant prev prompt calls rest :
  toolTurnsFollow prev (prompt ++ AssistantMessage calls :: rest) =
    toolTurnsFollow prev prompt &&
    toolTurnsFollow (Some (AssistantMessage calls)) rest.
Proof.
  revert prev. induction prompt as [|m prompt IH]; intros prev; [done|].
  simpl. by rewrite IH, andb_assoc.
Qed.

(** What the checker says about the message at each position. *)
Lemma toolTurnsFollow_lookup prev prompt i results :
  toolTurnsFollow prev prompt = true →
  prompt !! i = Some (ToolMessage results) →
  ∃ calls,
    match i with O => prev | S j => prompt !! j end = Some (AssistantMessage calls) ∧
    forallb (resolves calls) results = true.
Proof.
  revert prev i. induction prompt as [|m prompt IH]; intros prev i Hok Hi; [done|].
  simpl in Hok. apply andb_prop in Hok as [Hm Hrest].
  destruct i as [|i]; simpl in Hi.
  - injection Hi as ->. destruct prev as [[]|]; try discriminate. eauto.
  - destruct (IH (Some m) i Hrest Hi) as (calls & Hprev & Hres).
    exists calls. split; [|done]. by destruct i.
Qed.

Lemma splitterInvariant_init : splitterInvariant assistantMessageSplitter.
Proof. done. Qed.

Lemma splitterInvariant_rotate s :
  splitterInvariant s → splitterInvariant (rotate s).
Proof.
  intros [Hstash Hbuf]. split; [|done]. simpl.
  rewrite toolTurnsFollow_app_assistant, Hstash. simpl.
  by rewrite Hbuf.
Qed.

Lemma splitterInvariant_addTextContentPart text s :
  splitterInvariant s → splitterInvariant (addTextContentPart text s).
Proof.
  intros Hs. unfold addTextContentPart.
  destruct (decide _).
  - apply splitterInvariant_rotate in Hs as [Hstash _]. by split.
  - destruct Hs as [Hstash Hbuf]. split; [done|].
    by apply forallb_resolves_app_l.
Qed.

Lemma splitterInvariant_addToolCallPart call s :
  splitterInvariant s → splitterInvariant (addToolCallPart call s).
Proof.
  intros [Hstash Hbuf]. split; [done|]. simpl.
  destruct (result call) as [r|]; [destruct (ToBoolean r)|];
    try by apply forallb_resolves_app_l.
  rewrite forallb_app. simpl.
  by rewrite forallb_resolves_app_l, resolves_last.
Qed.

Lemma splitterInvariant_foldl parts s :
  splitterInvariant s → splitterInvariant (foldl addPart s parts).
Proof.
  revert s. induction parts as [|p parts IH]; intros s Hs; [done|].
  simpl. apply IH. destruct p; simpl;
    auto using splitterInvariant_addTextContentPart,
               splitterInvariant_addToolCallPart.
Qed.

Lemma splitterInvariant_getMessages s :
  splitterInvariant s → toolTurnsFollow None (getMessages s) = true.
Proof.
  intros [Hstash Hbuf]. unfold getMessages.
  destruct (decide _); rewrite toolTurnsFollow_app_assistant, Hstash; simpl;
    [by rewrite Hbuf|done].
Qed.

End Alternation.

(** C4.  An assistant message (parts of the assistant type) is converted
    without an exception, and in the prompt it gives every tool message sits
    right after an assistant message, each tool-result entry has the call id
    and the tool name of a tool-call part of that assistant message, and no
    two tool messages are next to each other. *)
Theorem assistant_tool_alternation newURL (message : CoreThreadMessage) :
  role message = "assistant" →
  forallb isAssistantPart (content message) = true →
  ∃ prompt,
    convertToLanguageModelMessage newURL message = Return prompt ∧
    (∀ i results,
       prompt !! i = Some (ToolMessage results) →
       ∃ j calls,
         i = S j ∧
         prompt !! j = Some (AssistantMessage calls) ∧
         ∀ r, r ∈ results →
              ∃ a, ToolCall (resultCallId r) (resultToolName r) a ∈ calls) ∧
    (∀ i results results',
       prompt !! i = Some (ToolMessage results) →
       prompt !! S i = Some (ToolMessage results') →
       False).
Proof.
  intros Hrole Hparts.
  exists (getMessages (foldl addPart assistantMessageSplitter (content message))).
  assert (Hok : toolTurnsFollow None
            (getMessages (foldl addPart assistantMessageSplitter (content message)))
          = true).
  { apply splitterInvariant_getMessages, splitterInvariant_foldl,
      splitterInvariant_init. }
  split; [|split].
  - unfold convertToLanguageModelMessage. rewrite Hrole. simpl.
    by rewrite visitParts_assistant.
  - intros i results Hi.
    destruct (toolTurnsFollow_lookup _ _ _ _ Hok Hi) as (calls & Hprev & Hres).
    destruct i as [|j]; [done|].
    exists j, calls. repeat split; [done|].
    intros r Hr. apply resolves_elem_of.
    rewrite forallb_forall in Hres. by apply Hres, list_elem_of_In.
  - intros i results results' Hi HSi.
    destruct (toolTurnsFollow_lookup _ _ _ _ Hok HSi) as (calls & Hprev & _).
    simpl in Hprev. congruence.
Qed.

Lemma assistant_tool_alternation_witness :
  ∃ prompt,
    convertToLanguageModelMessage httpsURL
      (assistantOf [ToolCallPart searchCall; textPart "x"; ToolCallPart searchCall])
      = Return prompt ∧
    (∀ i results,
       prompt !! i = Some (ToolMessage results) →
       ∃ j calls,
         i = S j ∧
         prompt !! j = Some (AssistantMessage calls) ∧
         ∀ r, r ∈ results →
              ∃ a, ToolCall (resultCallId r) (resultToolName r) a ∈ calls) ∧
    (∀ i results results',
       prompt !! i = Some (ToolMessage results) →
       prompt !! S i = Some (ToolMessage results') →
       False).
Proof.
  apply (assistant_tool_alternation httpsURL
           (assistantOf [ToolCallPart searchCall; textPart "x"; ToolCallPart searchCall]));
    reflexivity.
Defined.

(** ** The prompt as a concatenation (C5, C6) *)

Section Prompt.

Variable newURL : string → option URL.

Lemma bind_Return_id {A : Type} (c : Completion A) : c ≫= Return = c.
Proof. by destruct c. Qed.

Lemma flatMap_app {A B : Type} (f : A → Completion (list B)) (l1 l2 : list A) :
  flatMap f (l1 ++ l2) =
    ys ← flatMap f l1; zs ← flatMap f l2; Return (ys ++ zs).
Proof.
  induction l1 as [|x l1 IH]; simpl.
  - by destruct (flatMap f l2).
  - destruct (f x) as [ys|e]; simpl; [|done].
    rewrite IH. destruct (flatMap f l1) as [ys'|e]; simpl; [|done].
    destruct (flatMap f l2) as [zs|e]; simpl; [|done].
    by rewrite app_assoc.
Qed.

Lemma flatMap_concatCompletions {A B : Type} (f : A → Completion (list B)) (l : list A) :
  flatMap f l = concatCompletions (map f l).
Proof. induction l as [|x l IH]; simpl; [done|by rewrite IH]. Qed.

(** Without a preamble the prompt is the flattened image of the messages. *)
Lemma convertPrompt_None messages :
  convertToLanguageModelPrompt newURL None messages = flatMap (convertToLanguageModelMessage newURL) messages.
Proof. unfold convertToLanguageModelPrompt. simpl. apply bind_Return_id. Qed.

Lemma convertPrompt_Some s messages :
  convertToLanguageModelPrompt newURL (Some s) messages =
    converted ← flatMap (convertToLanguageModelMessage newURL) messages;
    Return (SystemMessage (Some s) :: converted).
Proof. done. Qed.

Lemma convertPrompt_singleton message :
  convertToLanguageModelPrompt newURL None [message] = convertToLanguageModelMessage newURL message.
Proof.
  rewrite convertPrompt_None. simpl.
  destruct (convertToLanguageModelMessage newURL message) as [ys|e]; simpl; [|done].
  by rewrite app_nil_r.
Qed.

End Prompt.

(** C5.  Converting a conversation (no preamble) gives the concatenation, in
    input order, of the conversions of its messages taken one at a time; in
    particular the conversion of [before ++ after] is the conversion of
    [before] followed by that of [after]. *)
Theorem prompt_is_concatenation_of_messages :
  ∀ newURL (messages : list CoreThreadMessage),
    convertToLanguageModelPrompt newURL None messages =
      concatCompletions
        (map (λ m, convertToLanguageModelPrompt newURL None [m]) messages) ∧
    ∀ before after : list CoreThreadMessage,
      convertToLanguageModelPrompt newURL None (before ++ after) =
        (p ← convertToLanguageModelPrompt newURL None before;
         q ← convertToLanguageModelPrompt newURL None after;
         Return (p ++ q)).
Proof.
  intros newURL messages. split.
  - rewrite convertPrompt_None, flatMap_concatCompletions.
    f_equal. apply map_ext. intros m. by rewrite convertPrompt_singleton.
  - intros before after. rewrite !convertPrompt_None. apply flatMap_app.
Qed.

(** C6.  With a preamble [s] the prompt is the system message carrying [s]
    followed by the conversions of the messages in order; without one it is
    those conversions alone. *)
Theorem preamble_leads_the_prompt :
  ∀ newURL (messages : list CoreThreadMessage),
    (∀ s,
       convertToLanguageModelPrompt newURL (Some s) messages =
         (converted ← concatCompletions
                         (map (convertToLanguageModelMessage newURL) messages);
          Return (SystemMessage (Some s) :: converted))) ∧
    convertToLanguageModelPrompt newURL None messages =
      concatCompletions (map (convertToLanguageModelMessage newURL) messages) ∧
    convertToLanguageModelPrompt newURL (Some "be terse") [userOf [textPart "hi"]] =
      Return [SystemMessage (Some "be terse");
              UserMessage [UserText {| text := "hi" |}]].
Proof.
  intros newURL messages. split; [|split].
  - intros s. by rewrite convertPrompt_Some, flatMap_concatCompletions.
  - by rewrite convertPrompt_None, flatMap_concatCompletions.
  - done.
Qed.

(** ** User messages (C7) *)

Section UserParts.

Variable newURL : string → option URL.

Lemma mapM_cons {A B : Type} (f : A → Completion B) (x : A) (l : list A) :
mapM f (x :: l) = y ← f x; k ← mapM f l; Return (y :: k).
Proof. done. Qed.

Lemma mapM_convertUserPart_Return (parts : list ContentPart) :
forallb isUserPart parts = true →
(∀ image, ImagePart image ∈ parts → is_Some (newURL image)) →
∃ converted,
  mapM (convertUserPart newURL) parts = Return converted ∧
  Forall2 (userPartConverts newURL) parts converted.
Proof.
induction parts as [|p parts IH]; intros Htyped Hurls.
- exists []. by split.
- simpl in Htyped. apply andb_prop in Htyped as [Hp Htyped].
  destruct IH as (converted & Hrest & Hall); [done|..].
  { intros image Hin. apply Hurls. by right. }
  rewrite mapM_cons, Hrest.
  destruct p as [t|image| |]; try discriminate; simpl.
  + exists (UserText t :: converted). split; [done|]. by constructor.
  + destruct (Hurls image) as [url Hurl]; [by left|].
    rewrite Hurl. simpl. exists (UserImage url :: converted).
    split; [done|]. constructor; [|done]. simpl. eauto.
Qed.

Lemma mapM_convertUserPart_Throw (parts : list ContentPart) (image : string) :
forallb isUserPart parts = true →
ImagePart image ∈ parts →
newURL image = None →
∃ bad,
  mapM (convertUserPart newURL) parts = Throw (InvalidURL bad) ∧
  ImagePart bad ∈ parts ∧ newURL bad = None.
Proof.
induction parts as [|p parts IH]; intros Htyped Hin Hbad.
- by apply elem_of_nil in Hin.
- simpl in Htyped. apply andb_prop in Htyped as [Hp Htyped].
  rewrite mapM_cons.
  destruct p as [t|image'| |]; try discriminate; simpl.
  + apply elem_of_cons in Hin as [[=]|Hin].
    destruct (IH Htyped Hin Hbad) as (bad & -> & Hbadin & Hnone).
    exists bad. repeat split; [by right|done].
  + destruct (newURL image') as [url|] eqn:Hurl; simpl.
    * apply elem_of_cons in Hin as [[= ->]|Hin]; [congruence|].
      destruct (IH Htyped Hin Hbad) as (bad & -> & Hbadin & Hnone).
      exists bad. repeat split; [by right|done].
    * exists image'. repeat split; [by left|done].
Qed.

End UserParts.

(** C7.  A user message (parts of the user type) whose image strings all
    parse is converted to exactly one user prompt message with one part per
    input part, in order: a text part is kept as it is, an image part
    becomes the URL its string parses to.  If some image string does not
    parse, the conversion throws the parser's exception for such a string, a
    [MalformedContent] error, and returns nothing. *)
Theorem user_message_conversion newURL (message : CoreThreadMessage) :
  role message = "user" →
  forallb isUserPart (content message) = true →
  ((∀ image, ImagePart image ∈ content message → is_Some (newURL image)) →
   ∃ parts,
     convertToLanguageModelMessage newURL message = Return [UserMessage parts] ∧
     length parts = length (content message) ∧
     Forall2 (userPartConverts newURL) (content message) parts) ∧
  (∀ image,
     ImagePart image ∈ content message →
     newURL image = None →
     ∃ bad,
       convertToLanguageModelMessage newURL message = Throw (InvalidURL bad) ∧
       errorKind (InvalidURL bad) = Some MalformedContent ∧
       ImagePart bad ∈ content message ∧
       newURL bad = None).
Proof.
  intros Hrole Htyped.
  unfold convertToLanguageModelMessage. rewrite Hrole. simpl. split.
  - intros Hurls.
    destruct (mapM_convertUserPart_Return newURL _ Htyped Hurls)
      as (parts & -> & Hall).
    exists parts. repeat split; [|done]. symmetry. by eapply Forall2_length.
  - intros image Hin Hbad.
    destruct (mapM_convertUserPart_Throw newURL _ _ Htyped Hin Hbad)
      as (bad & -> & Hbadin & Hnone).
    by exists bad.
Qed.

Lemma user_message_conversion_witness :
  (∃ parts,
     convertToLanguageModelMessage httpsURL
       (userOf [textPart "hi"; ImagePart "https://example.com/cat.png"])
       = Return [UserMessage parts] ∧
     length parts = 2%nat ∧
     Forall2 (userPartConverts httpsURL)
       [textPart "hi"; ImagePart "https://example.com/cat.png"] parts) ∧
  (∃ bad,
     convertToLanguageModelMessage httpsURL
       (userOf [textPart "hi"; ImagePart "cat.png"])
       = Throw (InvalidURL bad) ∧
     errorKind (InvalidURL bad) = Some MalformedContent ∧
     ImagePart bad ∈ [textPart "hi"; ImagePart "cat.png"] ∧
     httpsURL bad = None).
Proof.
  split.
  - apply (user_message_conversion httpsURL
             (userOf [textPart "hi"; ImagePart "https://example.com/cat.png"])
             eq_refl eq_refl).
    intros image Hin. apply list_elem_of_In in Hin.
    destruct Hin as [Heq|[Heq|[]]]; [discriminate Heq|].
    injection Heq as <-. by eexists.
  - apply (proj2 (user_message_conversion httpsURL
                    (userOf [textPart "hi"; ImagePart "cat.png"])
                    eq_refl eq_refl) "cat.png").
    + apply list_elem_of_In. right. by left.
    + reflexivity.
Defined.

(** ** Failures of the conversion (C8, C9, C10) *)

Lemma supportedRole_true r :
supportedRole r = true ↔ r = "system" ∨ r = "user" ∨ r = "assistant".
Proof.
unfold supportedRole. rewrite !orb_true_iff, !bool_decide_eq_true. tauto.
Qed.

Lemma supportedRole_false r :
supportedRole r = false ↔ r ≠ "system" ∧ r ≠ "user" ∧ r ≠ "assistant".
Proof.
unfold supportedRole. rewrite !orb_false_iff, !bool_decide_eq_false. tauto.
Qed.

Section Failures.

Variable newURL : string → option URL.

(** An exception thrown for one message is the outcome of the whole
  conversion, whatever follows, when the messages before it convert. *)
Lemma flatMap_Throw_at {A B : Type} (f : A → Completion (list B))
  (before after : list A) (x : A) (e : Exception) (p : list B) :
flatMap f before = Return p →
f x = Throw e →
flatMap f (before ++ x :: after) = Throw e.
Proof. intros Hbefore Hx. rewrite flatMap_app, Hbefore. simpl. by rewrite Hx. Qed.

(** In any case the whole conversion throws: there is no partial result. *)
Lemma flatMap_Throw_in {A B : Type} (f : A → Completion (list B))
  (before after : list A) (x : A) (e : Exception) :
f x = Throw e →
∃ e', flatMap f (before ++ x :: after) = Throw e'.
Proof.
intros Hx. rewrite flatMap_app.
destruct (flatMap f before) as [p|e']; simpl; [|by eauto].
rewrite Hx. by eauto.
Qed.

Lemma convertPrompt_Throw system messages e :
flatMap (convertToLanguageModelMessage newURL) messages = Throw e →
convertToLanguageModelPrompt newURL system messages = Throw e.
Proof. unfold convertToLanguageModelPrompt. by intros ->. Qed.

Lemma convertUserPart_errorKind part e :
convertUserPart newURL part = Throw e → errorKind e ≠ Some UnknownRole.
Proof.
destruct part as [t|image|c|ty]; simpl; try by intros [= <-].
destruct (newURL image); by intros [= <-].
Qed.

Lemma mapM_convertUserPart_errorKind parts e :
mapM (convertUserPart newURL) parts = Throw e → errorKind e ≠ Some UnknownRole.
Proof.
induction parts as [|p parts IH]; [done|].
rewrite mapM_cons.
destruct (convertUserPart newURL p) as [q|e'] eqn:Hp; simpl.
- destruct (mapM (convertUserPart newURL) parts) as [k|e'']; simpl; [done|].
  intros [= <-]. by apply IH.
- intros [= <-]. by eapply convertUserPart_errorKind.
Qed.

Lemma visitParts_errorKind parts s e :
visitParts parts s = Throw e → errorKind e ≠ Some UnknownRole.
Proof.
revert s. induction parts as [|p parts IH]; intros s; [done|].
destruct p; simpl; eauto; by intros [= <-].
Qed.

End Failures.

(** C8.  A message whose role is none of [system], [user], [assistant] makes
    the conversion throw the unknown-role error at once; the conversion of a
    conversation that holds such a message returns no prompt, and throws
    that very error when the messages before it convert.  A message with a
    supported role never ends in the unknown-role error. *)
Theorem unknown_role_fails_fast newURL (message : CoreThreadMessage) :
  (supportedRole (role message) = false →
   convertToLanguageModelMessage newURL message =
     Throw (UnknownMessageRole (role message)) ∧
   errorKind (UnknownMessageRole (role message)) = Some UnknownRole ∧
   ∀ system before after,
     (∃ e, convertToLanguageModelPrompt newURL system (before ++ message :: after)
           = Throw e) ∧
     (∀ p, convertToLanguageModelPrompt newURL None before = Return p →
           convertToLanguageModelPrompt newURL system (before ++ message :: after)
           = Throw (UnknownMessageRole (role message)))) ∧
  (supportedRole (role message) = true →
   ∀ e, convertToLanguageModelMessage newURL message = Throw e →
        errorKind e ≠ Some UnknownRole).
Proof.
  split.
  - intros (Hsys & Husr & Hast)%supportedRole_false.
    assert (Hthrow : convertToLanguageModelMessage newURL message =
                       Throw (UnknownMessageRole (role message))).
    { unfold convertToLanguageModelMessage. by repeat case_decide. }
    split; [done|]. split; [done|]. intros system before after. split.
    + destruct (flatMap_Throw_in (convertToLanguageModelMessage newURL)
                  before after message _ Hthrow) as [e He].
      exists e. by apply convertPrompt_Throw.
    + intros p Hp. rewrite convertPrompt_None in Hp.
      by eapply convertPrompt_Throw, flatMap_Throw_at.
  - intros Hrole%supportedRole_true e.
    unfold convertToLanguageModelMessage.
    destruct Hrole as [->| [->| ->]]; simpl.
    + destruct (content message !! 0%nat); by intros [= <-].
    + destruct (mapM (convertUserPart newURL) (content message)) as [k|e'] eqn:Hk;
        simpl; [done|].
      intros [= <-]. by eapply mapM_convertUserPart_errorKind.
    + destruct (visitParts (content message) assistantMessageSplitter)
        as [s|e'] eqn:Hs; simpl; [done|].
      intros [= <-]. by eapply visitParts_errorKind.
Qed.

Lemma unknown_role_fails_fast_witness :
  (convertToLanguageModelMessage httpsURL {| role := "tool"; content := [] |} =
     Throw (UnknownMessageRole "tool") ∧
   errorKind (UnknownMessageRole "tool") = Some UnknownRole ∧
   ∀ system before after,
     (∃ e, convertToLanguageModelPrompt httpsURL system
             (before ++ {| role := "tool"; content := [] |} :: after) = Throw e) ∧
     (∀ p, convertToLanguageModelPrompt httpsURL None before = Return p →
           convertToLanguageModelPrompt httpsURL system
             (before ++ {| role := "tool"; content := [] |} :: after)
           = Throw (UnknownMessageRole "tool"))) ∧
  (∀ e, convertToLanguageModelMessage httpsURL (userOf [ImagePart "cat.png"]) = Throw e →
        errorKind e ≠ Some UnknownRole).
Proof.
  split.
  - apply (proj1 (unknown_role_fails_fast httpsURL {| role := "tool"; content := [] |})).
    reflexivity.
  - apply (proj2 (unknown_role_fails_fast httpsURL (userOf [ImagePart "cat.png"]))).
    reflexivity.
Defined.

(** C9.  An assistant message without parts is converted, without an
    exception, to one assistant prompt message with empty content and no
    tool message. *)
Theorem empty_assistant_message :
  ∀ newURL,
    convertToLanguageModelMessage newURL {| role := "assistant"; content := [] |} =
      Return [AssistantMessage []].
Proof. done. Qed.

(** A system message with a leading text part gives that text. *)
Lemma system_message_first_text newURL t rest :
  convertToLanguageModelMessage newURL
    {| role := "system"; content := TextPart t :: rest |} =
  Return [SystemMessage (Some (text t))].
Proof. done. Qed.

(** C10.  A system message with an empty content list gives no system
    prompt message: reading [.text] off the missing first entry throws, the
    exception is none of the errors the design names, and it is the outcome
    of converting any conversation that starts with such a message. *)
Theorem empty_system_message_unhandled :
  ∀ newURL,
    convertToLanguageModelMessage newURL {| role := "system"; content := [] |} =
      Throw (ReadOfUndefined "text") ∧
    errorKind (ReadOfUndefined "text") = None ∧
    ∀ system after,
      convertToLanguageModelPrompt newURL system
        ({| role := "system"; content := [] |} :: after) =
      Throw (ReadOfUndefined "text").
Proof. done. Qed.

(** * Further properties of the conversion *)

(** ** What the splitter keeps *)

Section SplitterKeeps.

Implicit Types (s : Splitter) (p : ContentPart) (parts : list ContentPart).

(** The loop returns exactly on parts of the assistant type. *)
Lemma visitParts_Return parts s s' :
  visitParts parts s = Return s' →
  forallb isAssistantPart parts = true ∧ s' = foldl addPart s parts.
Proof.
  revert s. induction parts as [|p parts IH]; intros s; simpl.
  - by intros [= ->].
  - destruct p; try discriminate; simpl; apply IH.
Qed.

Lemma convert_assistant_typed newURL (message : CoreThreadMessage) :
  role message = "assistant" →
  forallb isAssistantPart (content message) = true →
  convertToLanguageModelMessage newURL message =
    Return (getMessages (foldl addPart assistantMessageSplitter (content message))).
Proof.
  intros Hrole Htyped. unfold convertToLanguageModelMessage.
  rewrite Hrole. simpl. by rewrite visitParts_assistant.
Qed.

(** The assistant entries held by the stash and the current buffer, in
    order, grow by the entry of the part visited. *)
Lemma addPart_assistantContent p s :
  flat_map assistantContent (stash (addPart s p)) ++ assistantMessage (addPart s p) =
    (flat_map assistantContent (stash s) ++ assistantMessage s)
      ++ option_list (assistantEntry p).
Proof.
  destruct p as [t| |c|]; simpl; try by rewrite app_nil_r.
  - unfold addTextContentPart. destruct (decide _); simpl.
    + rewrite flat_map_app. simpl. by rewrite app_nil_r.
    + by rewrite app_assoc.
  - by rewrite app_assoc.
Qed.

Lemma foldl_addPart_assistantContent parts s :
  flat_map assistantContent (stash (foldl addPart s parts))
    ++ assistantMessage (foldl addPart s parts) =
  (flat_map assistantContent (stash s) ++ assistantMessage s)
    ++ omap assistantEntry parts.
Proof.
  revert s. induction parts as [|p parts IH]; intros s; simpl.
  - by rewrite app_nil_r.
  - rewrite IH, addPart_assistantContent, <- app_assoc.
    by destruct (assistantEntry p).
Qed.

(** The same for the tool-result entries. *)
Lemma addPart_toolContent p s :
  flat_map toolContent (stash (addPart s p)) ++ toolMessage (addPart s p) =
    (flat_map toolContent (stash s) ++ toolMessage s)
      ++ option_list (toolResultEntry p).
Proof.
  destruct p as [t| |c|]; simpl; try by rewrite app_nil_r.
  - unfold addTextContentPart. destruct (decide _); simpl.
    + rewrite flat_map_app. simpl. by rewrite !app_nil_r.
    + by rewrite app_nil_r.
  - destruct (result c) as [r|]; [destruct (ToBoolean r)|]; simpl;
      by rewrite ?app_nil_r, ?app_assoc.
Qed.

Lemma foldl_addPart_toolContent parts s :
  flat_map toolContent (stash (foldl addPart s parts))
    ++ toolMessage (foldl addPart s parts) =
  (flat_map toolContent (stash s) ++ toolMessage s)
    ++ omap toolResultEntry parts.
Proof.
  revert s. induction parts as [|p parts IH]; intros s; simpl.
  - by rewrite app_nil_r.
  - rewrite IH, addPart_toolContent, <- app_assoc.
    by destruct (toolResultEntry p).
Qed.

Lemma length_omap_assistantEntry parts :
  forallb isAssistantPart parts = true →
  length (omap assistantEntry parts) = length parts.
Proof.
  induction parts as [|p parts IH]; intros Htyped; [done|].
  simpl in Htyped. apply andb_prop in Htyped as [Hp Htyped].
  destruct p; try discriminate; simpl; f_equal; by apply IH.
Qed.

Lemma getMessages_assistantContent s :
  flat_map assistantContent (getMessages s) =
    flat_map assistantContent (stash s) ++ assistantMessage s.
Proof.
  unfold getMessages. destruct (decide _); rewrite flat_map_app; simpl;
    by rewrite app_nil_r.
Qed.

Lemma getMessages_toolContent s :
  flat_map toolContent (getMessages s) =
    flat_map toolContent (stash s) ++ toolMessage s.
Proof.
  unfold getMessages. destruct (decide _) as [|Hlen]; rewrite flat_map_app; simpl.
  - by rewrite app_nil_r.
  - destruct (toolMessage s); [done|simpl in Hlen; lia].
Qed.

End SplitterKeeps.

(** X1.  The assistant entries of the prompt messages of an assistant message,
    read in order across the prompt, are the entries of its parts in input
    order, one per part: no part is lost, repeated or moved by the
    splitting. *)
Theorem assistant_parts_preserved newURL (message : CoreThreadMessage) :
  role message = "assistant" →
  forallb isAssistantPart (content message) = true →
  ∃ prompt,
    convertToLanguageModelMessage newURL message = Return prompt ∧
    flat_map assistantContent prompt = omap assistantEntry (content message) ∧
    length (flat_map assistantContent prompt) = length (content message).
Proof.
  intros Hrole Htyped. eexists. split; [by apply convert_assistant_typed|].
  rewrite getMessages_assistantContent, foldl_addPart_assistantContent. simpl.
  split; [done|]. by apply length_omap_assistantEntry.
Qed.

Lemma assistant_parts_preserved_witness :
  ∃ prompt,
    convertToLanguageModelMessage httpsURL sampleAssistant = Return prompt ∧
    flat_map assistantContent prompt = omap assistantEntry (content sampleAssistant) ∧
    length (flat_map assistantContent prompt) = length (content sampleAssistant).
Proof.
  apply (assistant_parts_preserved httpsURL sampleAssistant); reflexivity.
Defined.

(** X2.  The tool-result entries of the tool messages, read in order across
    the prompt, are the results of the tool-call parts whose result is
    truthy, in input order. *)
Theorem tool_results_preserved newURL (message : CoreThreadMessage) :
  role message = "assistant" →
  forallb isAssistantPart (content message) = true →
  ∃ prompt,
    convertToLanguageModelMessage newURL message = Return prompt ∧
    flat_map toolContent prompt = omap toolResultEntry (content message).
Proof.
  intros Hrole Htyped. eexists. split; [by apply convert_assistant_typed|].
  by rewrite getMessages_toolContent, foldl_addPart_toolContent.
Qed.

Lemma tool_results_preserved_witness :
  ∃ prompt,
    convertToLanguageModelMessage httpsURL sampleAssistant = Return prompt ∧
    flat_map toolContent prompt = omap toolResultEntry (content sampleAssistant).
Proof.
  apply (tool_results_preserved httpsURL sampleAssistant); reflexivity.
Defined.

(** ** The shape of the prompt of an assistant message *)

Section SplitterShape.

Implicit Types (s : Splitter) (p : ContentPart) (parts : list ContentPart).

Lemma length_pos_cons {A : Type} (l : list A) :
  0 < length l → ∃ x l', l = x :: l'.
Proof. destruct l; simpl; [lia|eauto]. Qed.

Lemma noEmptyToolMessage_addPart p s :
  noEmptyToolMessage (stash s) = true →
  noEmptyToolMessage (stash (addPart s p)) = true.
Proof.
  intros Hs. destruct p as [t| |c|]; try done. simpl.
  unfold addTextContentPart. destruct (decide _) as [Hlen|]; [|done]. simpl.
  unfold noEmptyToolMessage in *. rewrite forallb_app, Hs. simpl.
  by destruct (length_pos_cons _ Hlen) as (r & rs & ->).
Qed.

Lemma noEmptyToolMessage_foldl parts s :
  noEmptyToolMessage (stash s) = true →
  noEmptyToolMessage (stash (foldl addPart s parts)) = true.
Proof.
  revert s. induction parts as [|p parts IH]; intros s Hs; [done|].
  simpl. by apply IH, noEmptyToolMessage_addPart.
Qed.

Lemma noEmptyToolMessage_getMessages s :
  noEmptyToolMessage (stash s) = true →
  noEmptyToolMessage (getMessages s) = true.
Proof.
  intros Hs. unfold getMessages, noEmptyToolMessage in *.
  destruct (decide _) as [Hlen|]; rewrite forallb_app, Hs; [|done]. simpl.
  by destruct (length_pos_cons _ Hlen) as (r & rs & ->).
Qed.

(** Alternation goes through an append, the turn after the first list being
    fixed by the parity of its length. *)
Lemma rolesAlternate_app b (l1 l2 : list LanguageModelV1Message) :
  rolesAlternate b (l1 ++ l2) =
    rolesAlternate b l1 &&
    rolesAlternate (if Nat.even (length l1) then b else negb b) l2.
Proof.
  revert b. induction l1 as [|m l1 IH]; intros b; [done|].
  cbn [app rolesAlternate length]. rewrite IH, Nat.even_succ, <- Nat.negb_even.
  rewrite andb_assoc. by destruct (Nat.even (length l1)), b.
Qed.

Lemma rolesAlternate_lookup b (l : list LanguageModelV1Message) i m :
  rolesAlternate b l = true →
  l !! i = Some m →
  promptRole m = if (if Nat.even i then b else negb b) then "assistant" else "tool".
Proof.
  revert b i. induction l as [|m' l IH]; intros b i Hok Hi; [done|].
  simpl in Hok. apply andb_prop in Hok as [Hm Hrest].
  destruct i as [|i].
  - injection Hi as ->. by destruct m, b.
  - rewrite (IH _ i Hrest Hi), Nat.even_succ, <- Nat.negb_even.
    by destruct (Nat.even i), b.
Qed.

(** The stash is a run of (assistant, tool) pairs. *)
Lemma stash_pairs_addPart p s :
  rolesAlternate true (stash s) = true ∧ Nat.even (length (stash s)) = true →
  rolesAlternate true (stash (addPart s p)) = true ∧
  Nat.even (length (stash (addPart s p))) = true.
Proof.
  intros [Halt Heven]. destruct p as [t| |c|]; try done. simpl.
  unfold addTextContentPart. destruct (decide _); [|done]. simpl.
  rewrite rolesAlternate_app, Halt, Heven, length_app. simpl.
  split; [done|]. by rewrite Nat.even_add, Heven.
Qed.

Lemma stash_pairs_foldl parts s :
  rolesAlternate true (stash s) = true ∧ Nat.even (length (stash s)) = true →
  rolesAlternate true (stash (foldl addPart s parts)) = true ∧
  Nat.even (length (stash (foldl addPart s parts))) = true.
Proof.
  revert s. induction parts as [|p parts IH]; intros s Hs; [done|].
  simpl. by apply IH, stash_pairs_addPart.
Qed.

Lemma stash_pairs_getMessages s :
  rolesAlternate true (stash s) = true ∧ Nat.even (length (stash s)) = true →
  rolesAlternate true (getMessages s) = true.
Proof.
  intros [Halt Heven]. unfold getMessages.
  destruct (decide _); by rewrite rolesAlternate_app, Halt, Heven.
Qed.

Lemma getMessages_nonempty s : getMessages s ≠ [].
Proof.
  unfold getMessages. destruct (decide _); by destruct (stash s).
Qed.

End SplitterShape.

(** X3.  No tool message in the prompt of an assistant message is empty: a
    tool message is emitted only for a buffer that holds a result. *)
Theorem tool_messages_not_empty newURL (message : CoreThreadMessage) :
  role message = "assistant" →
  forallb isAssistantPart (content message) = true →
  ∃ prompt,
    convertToLanguageModelMessage newURL message = Return prompt ∧
    ∀ results, ToolMessage results ∈ prompt → results ≠ [].
Proof.
  intros Hrole Htyped. eexists. split; [by apply convert_assistant_typed|].
  intros results Hin ->.
  assert (Hok : noEmptyToolMessage
            (getMessages (foldl addPart assistantMessageSplitter (content message)))
          = true)
    by by apply noEmptyToolMessage_getMessages, noEmptyToolMessage_foldl.
  unfold noEmptyToolMessage in Hok. rewrite forallb_forall in Hok.
  apply list_elem_of_In in Hin. by apply Hok in Hin.
Qed.

Lemma tool_messages_not_empty_witness :
  ∃ prompt,
    convertToLanguageModelMessage httpsURL sampleAssistant = Return prompt ∧
    ∀ results, ToolMessage results ∈ prompt → results ≠ [].
Proof.
  apply (tool_messages_not_empty httpsURL sampleAssistant); reflexivity.
Defined.

(** X4.  The prompt of an assistant message is never empty and strictly
    alternates: the messages at even positions are assistant messages, the
    messages at odd positions are tool messages, and there is no system or
    user message. *)
Theorem assistant_prompt_alternates newURL (message : CoreThreadMessage) :
  role message = "assistant" →
  forallb isAssistantPart (content message) = true →
  ∃ prompt,
    convertToLanguageModelMessage newURL message = Return prompt ∧
    prompt ≠ [] ∧
    ∀ i m, prompt !! i = Some m →
           promptRole m = if Nat.even i then "assistant" else "tool".
Proof.
  intros Hrole Htyped. eexists. split; [by apply convert_assistant_typed|].
  split; [apply getMessages_nonempty|].
  intros i m Hi.
  assert (Hok : rolesAlternate true
            (getMessages (foldl addPart assistantMessageSplitter (content message)))
          = true)
    by by apply stash_pairs_getMessages, stash_pairs_foldl.
  rewrite (rolesAlternate_lookup _ _ _ _ Hok Hi). by destruct (Nat.even i).
Qed.

Lemma assistant_prompt_alternates_witness :
  ∃ prompt,
    convertToLanguageModelMessage httpsURL sampleAssistant = Return prompt ∧
    prompt ≠ [] ∧
    ∀ i m, prompt !! i = Some m →
           promptRole m = if Nat.even i then "assistant" else "tool".
Proof.
  apply (assistant_prompt_alternates httpsURL sampleAssistant); reflexivity.
Defined.

(** ** Messages that need no rotation, and the size of the prompt *)

Section SplitterRuns.

Implicit Types (s : Splitter) (p : ContentPart) (parts : list ContentPart).

#[local] Arguments Nat.min : simpl never.

(** Without a truthy result the tool buffer stays empty and the stash is
    never touched. *)
Lemma foldl_addPart_no_result parts s :
  omap toolResultEntry parts = [] →
  toolMessage s = [] →
  stash (foldl addPart s parts) = stash s ∧
  toolMessage (foldl addPart s parts) = [] ∧
  flat_map assistantContent (stash s) ++ assistantMessage (foldl addPart s parts) =
    flat_map assistantContent (stash s) ++ assistantMessage s
      ++ omap assistantEntry parts.
Proof.
  revert s. induction parts as [|p parts IH]; intros s Hnone Hempty.
  - simpl. by rewrite app_nil_r.
  - simpl in Hnone. destruct (toolResultEntry p) as [r|] eqn:Hp; [done|].
    assert (Hstep : stash (addPart s p) = stash s ∧
                    toolMessage (addPart s p) = [] ∧
                    assistantMessage (addPart s p) =
                      assistantMessage s ++ option_list (assistantEntry p)).
    { destruct p as [t| |c|]; cbn [addPart assistantEntry option_list];
        rewrite ?app_nil_r; try done.
      - by rewrite addTextContentPart_appends.
      - simpl in *. destruct (result c) as [v|]; [destruct (ToBoolean v)|]; done. }
    destruct Hstep as (Hstash & Htool & Hassistant).
    destruct (IH (addPart s p) Hnone Htool) as (IH1 & IH2 & IH3).
    simpl. rewrite IH1, Hstash. split; [done|]. split; [done|].
    rewrite Hstash in IH3. apply app_inv_head in IH3. rewrite IH3, Hassistant.
    rewrite <- !app_assoc. by destruct (assistantEntry p).
Qed.

(** Tool calls alone fill both buffers and never touch the stash. *)
Lemma foldl_addPart_calls parts s :
  forallb isToolCallPart parts = true →
  stash (foldl addPart s parts) = stash s ∧
  assistantMessage (foldl addPart s parts) =
    assistantMessage s ++ omap assistantEntry parts ∧
  toolMessage (foldl addPart s parts) =
    toolMessage s ++ omap toolResultEntry parts.
Proof.
  revert s. induction parts as [|p parts IH]; intros s Hcalls.
  - simpl. by rewrite !app_nil_r.
  - simpl in Hcalls. apply andb_prop in Hcalls as [Hp Hcalls].
    destruct p as [| |c|]; try discriminate.
    destruct (IH (addPart s (ToolCallPart c)) Hcalls) as (IH1 & IH2 & IH3).
    cbn [foldl]. rewrite IH1, IH2, IH3. simpl.
    split; [done|]. split; [by rewrite <- app_assoc|].
    destruct (result c) as [v|]; [destruct (ToBoolean v)|]; try done.
    by rewrite <- app_assoc.
Qed.

Lemma isToolCallPart_isAssistantPart parts :
  forallb isToolCallPart parts = true → forallb isAssistantPart parts = true.
Proof.
  rewrite !forallb_forall. intros H p Hp. specialize (H p Hp). by destruct p.
Qed.

Lemma omap_cons_option_list {A B : Type} (f : A → option B) (x : A) (l : list A) :
  omap f (x :: l) = option_list (f x) ++ omap f l.
Proof. simpl. by destruct (f x). Qed.

(** The stash grows by at most one pair per text part. *)
Lemma length_stash_texts parts s :
  (length (stash (foldl addPart s parts))
     ≤ length (stash s) + 2 * countTextParts parts)%nat.
Proof.
  revert s. induction parts as [|p parts IH]; intros s; [simpl; lia|].
  cbn [foldl]. etrans; [apply IH|].
  unfold countTextParts.
  destruct p as [t| |c|]; simpl; try lia.
  unfold addTextContentPart. destruct (decide _); simpl; [|lia].
  rewrite length_app. simpl. lia.
Qed.

(** Stash and tool buffer together grow by at most two messages per
    truthy result. *)
Lemma length_stash_results parts s :
  (length (stash (foldl addPart s parts))
     + 2 * Nat.min 1 (length (toolMessage (foldl addPart s parts)))
   ≤ length (stash s) + 2 * Nat.min 1 (length (toolMessage s))
     + 2 * length (omap toolResultEntry parts))%nat.
Proof.
  revert s. induction parts as [|p parts IH]; intros s; [simpl; lia|].
  cbn [foldl]. etrans; [apply IH|].
  rewrite omap_cons_option_list, length_app.
  generalize (length (omap toolResultEntry parts)). intros n.
  destruct p as [t| |c|]; simpl; try lia.
  - unfold addTextContentPart. destruct (decide _); simpl; [|lia].
    rewrite length_app. simpl. lia.
  - destruct (result c) as [v|]; [destruct (ToBoolean v)|]; simpl;
      rewrite ?length_app; simpl; lia.
Qed.

Lemma length_getMessages s :
  length (getMessages s) =
    length (stash s) + 1 + Nat.min 1 (length (toolMessage s)).
Proof.
  unfold getMessages. destruct (decide _); rewrite length_app; simpl; lia.
Qed.

End SplitterRuns.

(** X5.  An assistant message in which no tool call has a truthy result
    (text only, pending calls only, or both) is converted to exactly one
    assistant prompt message holding all its parts in order, and no tool
    message. *)
Theorem one_turn_without_results newURL (message : CoreThreadMessage) :
  role message = "assistant" →
  forallb isAssistantPart (content message) = true →
  omap toolResultEntry (content message) = [] →
  convertToLanguageModelMessage newURL message =
    Return [AssistantMessage (omap assistantEntry (content message))].
Proof.
  intros Hrole Htyped Hnone. rewrite convert_assistant_typed by done.
  destruct (foldl_addPart_no_result (content message) assistantMessageSplitter
              Hnone eq_refl) as (Hstash & Htool & Hassistant).
  simpl in Hstash, Hassistant.
  by rewrite getMessages_single, Hstash, Hassistant.
Qed.

Lemma one_turn_without_results_witness :
  convertToLanguageModelMessage httpsURL
    (assistantOf [textPart "a"; toolCallPart "1" "f" JNull None;
                  ToolCallPart countCall; textPart "b"]) =
  Return [AssistantMessage
            (omap assistantEntry
               [textPart "a"; toolCallPart "1" "f" JNull None;
                ToolCallPart countCall; textPart "b"])].
Proof.
  apply (one_turn_without_results httpsURL
           (assistantOf [textPart "a"; toolCallPart "1" "f" JNull None;
                         ToolCallPart countCall; textPart "b"]));
    reflexivity.
Defined.

(** X6.  An assistant message made of tool calls only is never split: it
    gives one assistant message with all the calls and, when some result is
    truthy, one tool message with all the truthy results, however many
    calls there are. *)
Theorem calls_share_one_turn newURL (message : CoreThreadMessage) :
  role message = "assistant" →
  forallb isToolCallPart (content message) = true →
  convertToLanguageModelMessage newURL message =
    Return (AssistantMessage (omap assistantEntry (content message)) ::
            match omap toolResultEntry (content message) with
            | [] => []
            | results => [ToolMessage results]
            end).
Proof.
  intros Hrole Hcalls.
  rewrite convert_assistant_typed by auto using isToolCallPart_isAssistantPart.
  destruct (foldl_addPart_calls (content message) assistantMessageSplitter Hcalls)
    as (Hstash & Hassistant & Htool).
  simpl in Hstash, Hassistant, Htool.
  destruct (omap toolResultEntry (content message)) as [|r rs] eqn:Hres.
  - by rewrite getMessages_single, Hstash, Hassistant.
  - rewrite getMessages_pair by by rewrite Htool.
    by rewrite Hstash, Hassistant, Htool.
Qed.

Lemma calls_share_one_turn_witness :
  convertToLanguageModelMessage httpsURL
    (assistantOf [ToolCallPart searchCall; ToolCallPart countCall;
                  ToolCallPart searchCall]) =
  Return (AssistantMessage
            (omap assistantEntry
               [ToolCallPart searchCall; ToolCallPart countCall;
                ToolCallPart searchCall]) ::
          match omap toolResultEntry
                  [ToolCallPart searchCall; ToolCallPart countCall;
                   ToolCallPart searchCall] with
          | [] => []
          | results => [ToolMessage results]
          end).
Proof.
  apply (calls_share_one_turn httpsURL
           (assistantOf [ToolCallPart searchCall; ToolCallPart countCall;
                         ToolCallPart searchCall]));
    reflexivity.
Defined.

(** X7.  The prompt of an assistant message has at least one message, at
    most two per text part plus two, and at most two per truthy tool result
    plus one. *)
Theorem assistant_prompt_size newURL (message : CoreThreadMessage) :
  role message = "assistant" →
  forallb isAssistantPart (content message) = true →
  ∃ prompt,
    convertToLanguageModelMessage newURL message = Return prompt ∧
    (1 ≤ length prompt)%nat ∧
    (length prompt ≤ 2 * countTextParts (content message) + 2)%nat ∧
    (length prompt ≤ 2 * length (omap toolResultEntry (content message)) + 1)%nat.
Proof.
  intros Hrole Htyped. eexists. split; [by apply convert_assistant_typed|].
  rewrite length_getMessages.
  pose proof (length_stash_texts (content message) assistantMessageSplitter) as Ht.
  pose proof (length_stash_results (content message) assistantMessageSplitter) as Hr.
  change (length (stash assistantMessageSplitter)) with 0%nat in Ht, Hr.
  change (length (toolMessage assistantMessageSplitter)) with 0%nat in Hr.
  lia.
Qed.

Lemma assistant_prompt_size_witness :
  ∃ prompt,
    convertToLanguageModelMessage httpsURL sampleAssistant = Return prompt ∧
    (1 ≤ length prompt)%nat ∧
    (length prompt ≤ 2 * countTextParts (content sampleAssistant) + 2)%nat ∧
    (length prompt
       ≤ 2 * length (omap toolResultEntry (content sampleAssistant)) + 1)%nat.
Proof.
  apply (assistant_prompt_size httpsURL sampleAssistant); reflexivity.
Defined.

(** ** The first part that does not fit *)

Section FirstFailure.

Variable newURL : string → option URL.

Lemma visitParts_typed_app (good rest : list ContentPart) (s : Splitter) :
  forallb isAssistantPart good = true →
  visitParts (good ++ rest) s = visitParts rest (foldl addPart s good).
Proof.
  revert s. induction good as [|p good IH]; intros s Htyped; [done|].
  simpl in Htyped. apply andb_prop in Htyped as [Hp Htyped].
  destruct p; try discriminate; simpl; by apply IH.
Qed.

Lemma convertUserPart_accepted (p : ContentPart) :
  userPartAccepted newURL p = true → ∃ q, convertUserPart newURL p = Return q.
Proof.
  destruct p as [t|image| |]; simpl; try done; [by eauto|].
  intros [url Hurl]%bool_decide_eq_true. rewrite Hurl. by eauto.
Qed.

Lemma convertUserPart_refused (p : ContentPart) :
  userPartAccepted newURL p = false →
  convertUserPart newURL p = Throw (userPartException p).
Proof.
  destruct p as [t|image| |]; simpl; try done.
  intros Hnone%bool_decide_eq_false.
  destruct (newURL image) as [url|]; [|done]. by destruct Hnone.
Qed.

Lemma mapM_convertUserPart_accepted (parts : list ContentPart) :
  forallb (userPartAccepted newURL) parts = true →
  ∃ converted,
    mapM (convertUserPart newURL) parts = Return converted ∧
    length converted = length parts.
Proof.
  induction parts as [|p parts IH]; intros Hall; [by exists []|].
  simpl in Hall. apply andb_prop in Hall as [Hp Hall].
  destruct (convertUserPart_accepted p Hp) as [q Hq].
  destruct (IH Hall) as (converted & Hconv & Hlen).
  exists (q :: converted). rewrite mapM_cons, Hq, Hconv. simpl.
  by rewrite Hlen.
Qed.

Lemma mapM_first_Throw {A B : Type} (f : A → Completion B)
    (good rest : list A) (x : A) (ys : list B) (e : Exception) :
  mapM f good = Return ys →
  f x = Throw e →
  mapM f (good ++ x :: rest) = Throw e.
Proof.
  revert ys. induction good as [|g good IH]; intros ys Hgood Hx.
  - simpl. by rewrite Hx.
  - rewrite mapM_cons in Hgood. cbn [app]. rewrite mapM_cons.
    destruct (f g) as [y|e']; [|done]. simpl in *.
    destruct (mapM f good) as [ys'|e'] eqn:Hgood'; [|done].
    by rewrite (IH ys').
Qed.

Lemma forallb_false_first {A : Type} (f : A → bool) (l : list A) :
  forallb f l = false →
  ∃ good bad rest,
    l = good ++ bad :: rest ∧ forallb f good = true ∧ f bad = false.
Proof.
  induction l as [|x l IH]; [done|]. simpl.
  destruct (f x) eqn:Hx.
  - intros (good & bad & rest & -> & Hg & Hb)%IH.
    exists (x :: good), bad, rest. simpl. by rewrite Hx, Hg.
  - intros _. by exists [], x, l.
Qed.

Lemma convert_user_refused (good rest : list ContentPart) (bad : ContentPart) :
  forallb (userPartAccepted newURL) good = true →
  userPartAccepted newURL bad = false →
  convertToLanguageModelMessage newURL (userOf (good ++ bad :: rest)) =
    Throw (userPartException bad).
Proof.
  intros Hgood Hbad. unfold convertToLanguageModelMessage. simpl.
  destruct (mapM_convertUserPart_accepted good Hgood) as (ys & Hys & _).
  by rewrite (mapM_first_Throw _ good rest bad ys (userPartException bad) Hys
                (convertUserPart_refused bad Hbad)).
Qed.

End FirstFailure.

(** X8.  An assistant message that holds a part which is neither text nor a
    tool call (an image, say) is not converted: the conversion throws, the
    exception names the type of the first such part, and the parts after it
    play no role. *)
Theorem assistant_rejects_foreign_part newURL (good rest : list ContentPart)
    (bad : ContentPart) :
  forallb isAssistantPart good = true →
  isAssistantPart bad = false →
  convertToLanguageModelMessage newURL (assistantOf (good ++ bad :: rest)) =
    Throw (UnhandledContentPartType (part_type bad)).
Proof.
  intros Hgood Hbad. unfold convertToLanguageModelMessage. simpl.
  rewrite visitParts_typed_app by done.
  by destruct bad.
Qed.

Lemma assistant_rejects_foreign_part_witness :
  convertToLanguageModelMessage httpsURL
    (assistantOf ([textPart "look"; ToolCallPart searchCall]
                    ++ ImagePart "https://example.com/cat.png"
                    :: [OtherPart "audio"])) =
  Throw (UnhandledContentPartType (part_type (ImagePart "https://example.com/cat.png"))).
Proof.
  apply (assistant_rejects_foreign_part httpsURL
           [textPart "look"; ToolCallPart searchCall] [OtherPart "audio"]
           (ImagePart "https://example.com/cat.png"));
    reflexivity.
Defined.

(** X9.  In a user message the first part that is not accepted (an image
    whose string does not parse, or a part that is neither text nor image)
    decides the outcome: the conversion throws the exception of that part,
    whatever comes after it. *)
Theorem user_first_refused_part newURL (good rest : list ContentPart)
    (bad : ContentPart) :
  forallb (userPartAccepted newURL) good = true →
  userPartAccepted newURL bad = false →
  convertToLanguageModelMessage newURL (userOf (good ++ bad :: rest)) =
    Throw (userPartException bad).
Proof.
  apply convert_user_refused.
Qed.

Lemma user_first_refused_part_witness :
  convertToLanguageModelMessage httpsURL
    (userOf ([textPart "hi"; ImagePart "https://example.com/cat.png"]
               ++ ToolCallPart searchCall :: [ImagePart "cat.png"])) =
  Throw (userPartException (ToolCallPart searchCall)).
Proof.
  apply (user_first_refused_part httpsURL
           [textPart "hi"; ImagePart "https://example.com/cat.png"]
           [ImagePart "cat.png"] (ToolCallPart searchCall));
    reflexivity.
Defined.

(** X10.  A user message whose parts are all accepted is converted to one
    user message with as many parts; so a user message is converted exactly
    when every part is text or an image whose string parses. *)
Theorem user_message_converts_iff newURL (parts : list ContentPart) :
  (∃ converted,
     convertToLanguageModelMessage newURL (userOf parts) =
       Return [UserMessage converted] ∧
     length converted = length parts) ↔
  forallb (userPartAccepted newURL) parts = true.
Proof.
  split.
  - intros (converted & Hconv & _).
    destruct (forallb (userPartAccepted newURL) parts) eqn:Hall; [done|].
    exfalso.
    destruct (forallb_false_first _ _ Hall) as (good & bad & rest & -> & Hg & Hb).
    by rewrite (convert_user_refused newURL good rest bad Hg Hb) in Hconv.
  - intros Hall.
    destruct (mapM_convertUserPart_accepted newURL parts Hall) as (ys & Hys & Hlen).
    exists ys. split; [|done].
    unfold convertToLanguageModelMessage. simpl. by rewrite Hys.
Qed.

(** X11.  An assistant message is converted exactly when every part is a
    text part or a tool call. *)
Theorem assistant_message_converts_iff newURL (parts : list ContentPart) :
  (∃ prompt, convertToLanguageModelMessage newURL (assistantOf parts) = Return prompt) ↔
  forallb isAssistantPart parts = true.
Proof.
  split.
  - intros [prompt Hconv]. unfold convertToLanguageModelMessage in Hconv.
    simpl in Hconv.
    destruct (visitParts parts assistantMessageSplitter) as [s|e] eqn:Hvisit;
      [|done].
    by apply visitParts_Return in Hvisit as [Htyped _].
  - intros Htyped. eexists. by apply convert_assistant_typed.
Qed.

(** ** System messages *)


(** ** One message at a time *)

Section PerMessage.

Variable newURL : string → option URL.

(** What a returned conversion says about the message, by role. *)
Lemma convert_Return_inv (message : CoreThreadMessage)
    (out : list LanguageModelV1Message) :
  convertToLanguageModelMessage newURL message = Return out →
  (role message = "system" ∧
   ∃ first, content message !! 0%nat = Some first ∧
            out = [SystemMessage (part_text first)]) ∨
  (role message = "user" ∧
   ∃ parts, mapM (convertUserPart newURL) (content message) = Return parts ∧
            out = [UserMessage parts]) ∨
  (role message = "assistant" ∧
   forallb isAssistantPart (content message) = true ∧
   out = getMessages (foldl addPart assistantMessageSplitter (content message))).
Proof.
  unfold convertToLanguageModelMessage. repeat case_decide; try done.
  - destruct (content message !! 0%nat) as [first|]; [|done].
    intros [= <-]. left. eauto.
  - destruct (mapM (convertUserPart newURL) (content message)) as [parts|e] eqn:Hm;
      [|done].
    intros [= <-]. right. left. eauto.
  - destruct (visitParts (content message) assistantMessageSplitter) as [s|e] eqn:Hv;
      [|done].
    intros [= <-]. apply visitParts_Return in Hv as [Htyped ->].
    right. right. eauto.
Qed.

Lemma convert_Return_nonempty message out :
  convertToLanguageModelMessage newURL message = Return out → (1 ≤ length out)%nat.
Proof.
  intros [(_ & first & _ & ->)|[(_ & parts & _ & ->)|(_ & _ & ->)]]%convert_Return_inv;
    simpl; try lia.
  rewrite length_getMessages. lia.
Qed.

Lemma convert_Return_one message out :
  convertToLanguageModelMessage newURL message = Return out →
  role message ≠ "assistant" →
  length out = 1%nat.
Proof.
  intros [(_ & first & _ & ->)|[(_ & parts & _ & ->)|(Hrole & _)]]%convert_Return_inv;
    done.
Qed.

Lemma convert_Return_roles message out :
  convertToLanguageModelMessage newURL message = Return out →
  forallb (roleAllowed (role message)) out = true.
Proof.
  intros [(-> & first & _ & ->)|[(-> & parts & _ & ->)|(-> & _ & ->)]]%convert_Return_inv;
    try done.
  apply forallb_forall. intros m [i Hi]%list_elem_of_In%list_elem_of_lookup.
  assert (Hok : rolesAlternate true
            (getMessages (foldl addPart assistantMessageSplitter (content message)))
          = true)
    by by apply stash_pairs_getMessages, stash_pairs_foldl.
  pose proof (rolesAlternate_lookup _ _ _ _ Hok Hi) as Hrole.
  unfold roleAllowed. rewrite Hrole. by destruct (Nat.even i).
Qed.

Lemma convert_Return_toolTurnsFollow message out :
  convertToLanguageModelMessage newURL message = Return out →
  toolTurnsFollow None out = true.
Proof.
  intros [(_ & first & _ & ->)|[(_ & parts & _ & ->)|(_ & _ & ->)]]%convert_Return_inv;
    try done.
  apply splitterInvariant_getMessages, splitterInvariant_foldl,
    splitterInvariant_init.
Qed.

End PerMessage.

(** X13.  Every prompt message made from a conversation message has the role
    of that message, except that an assistant message also gives tool
    messages: a system or user message never gives an assistant or tool
    message, and an assistant message never gives a system or user
    message. *)
Theorem conversion_keeps_roles newURL (message : CoreThreadMessage)
    (out : list LanguageModelV1Message) :
  convertToLanguageModelMessage newURL message = Return out →
  Forall (λ m, promptRole m = role message ∨
               (role message = "assistant" ∧ promptRole m = "tool")) out.
Proof.
  intros Hconv. apply Forall_forall. intros m Hm.
  pose proof (convert_Return_roles newURL message out Hconv) as Hroles.
  rewrite forallb_forall in Hroles.
  apply list_elem_of_In, Hroles in Hm. unfold roleAllowed in Hm.
  apply orb_prop in Hm as [Hm|Hm].
  - left. by apply bool_decide_eq_true in Hm.
  - apply andb_prop in Hm as [H1 H2]. right.
    by split; [apply bool_decide_eq_true in H1|apply bool_decide_eq_true in H2].
Qed.

Lemma conversion_keeps_roles_witness :
  Forall (λ m, promptRole m = role sampleAssistant ∨
               (role sampleAssistant = "assistant" ∧ promptRole m = "tool"))
    (getMessages (foldl addPart assistantMessageSplitter (content sampleAssistant))).
Proof.
  apply (conversion_keeps_roles httpsURL sampleAssistant). reflexivity.
Defined.

(** ** The whole conversation *)

Section Conversation.

Variable newURL : string → option URL.

Lemma flatMap_cons_Return {A B : Type} (f : A → Completion (list B))
    (x : A) (l : list A) (p : list B) :
  flatMap f (x :: l) = Return p ↔
  ∃ out rest, f x = Return out ∧ flatMap f l = Return rest ∧ p = out ++ rest.
Proof.
  simpl. destruct (f x) as [out|e]; simpl.
  - destruct (flatMap f l) as [rest|e]; simpl.
    + split; [intros [= <-]; eauto|].
      by intros (out' & rest' & [= <-] & [= <-] & ->).
    + split; [done|]. by intros (? & ? & _ & [=] & _).
  - split; [done|]. by intros (? & ? & [=] & _).
Qed.

Lemma flatMap_Forall_Return {A B : Type} (f : A → Completion (list B)) (l : list A) :
  Forall (λ x, ∃ out, f x = Return out) l → ∃ p, flatMap f l = Return p.
Proof.
  induction 1 as [|x l [out Hx] _ [p Hp]]; [by exists []|].
  exists (out ++ p). simpl. by rewrite Hx, Hp.
Qed.

Lemma flatMap_Throw_first {A B : Type} (f : A → Completion (list B))
    (l : list A) (e : Exception) :
  flatMap f l = Throw e →
  ∃ before x after,
    l = before ++ x :: after ∧
    Forall (λ y, ∃ out, f y = Return out) before ∧
    f x = Throw e.
Proof.
  induction l as [|x l IH]; [done|]. simpl.
  destruct (f x) as [out|e'] eqn:Hx; simpl.
  - destruct (flatMap f l) as [rest|e'']; simpl; [done|].
    intros [= ->]. destruct (IH eq_refl) as (before & y & after & -> & Hb & Hy).
    exists (x :: before), y, after. repeat split; [|done].
    constructor; eauto.
  - intros [= ->]. by exists [], x, l.
Qed.

Lemma convertPrompt_Return_inv system messages prompt :
  convertToLanguageModelPrompt newURL system messages = Return prompt →
  ∃ converted,
    flatMap (convertToLanguageModelMessage newURL) messages = Return converted ∧
    length prompt = (preambleLength system + length converted)%nat ∧
    prompt = match system with
             | Some s => SystemMessage (Some s) :: converted
             | None => converted
             end.
Proof.
  unfold convertToLanguageModelPrompt.
  destruct (flatMap _ messages) as [converted|e]; [|done]. simpl.
  intros [= <-]. exists converted. by destruct system.
Qed.

Lemma convertPrompt_Throw_inv system messages e :
  convertToLanguageModelPrompt newURL system messages = Throw e →
  flatMap (convertToLanguageModelMessage newURL) messages = Throw e.
Proof.
  unfold convertToLanguageModelPrompt.
  by destruct (flatMap _ messages) as [converted|e'].
Qed.

Lemma flatMap_convert_length messages converted :
  flatMap (convertToLanguageModelMessage newURL) messages = Return converted →
  (length messages ≤ length converted)%nat ∧
  (Forall (λ m, role m ≠ "assistant") messages →
   length converted = length messages).
Proof.
  revert converted. induction messages as [|m messages IH]; intros converted.
  - by intros [= <-].
  - intros (out & rest & Hm & Hrest & ->)%flatMap_cons_Return.
    destruct (IH rest Hrest) as [Hle Heq]. rewrite length_app.
    pose proof (convert_Return_nonempty newURL m out Hm). split; [simpl; lia|].
    intros [Hrole Hothers]%Forall_cons.
    rewrite (convert_Return_one newURL m out Hm Hrole), (Heq Hothers). done.
Qed.

Lemma toolTurnsFollow_any_prev (prompt : list LanguageModelV1Message) prev :
  toolTurnsFollow None prompt = true → toolTurnsFollow prev prompt = true.
Proof.
  destruct prompt as [|m prompt]; [done|]. simpl. by destruct m.
Qed.

Lemma toolTurnsFollow_app prev (prompt1 prompt2 : list LanguageModelV1Message) :
  toolTurnsFollow prev prompt1 = true →
  toolTurnsFollow None prompt2 = true →
  toolTurnsFollow prev (prompt1 ++ prompt2) = true.
Proof.
  revert prev. induction prompt1 as [|m prompt1 IH]; intros prev H1 H2.
  - by apply toolTurnsFollow_any_prev.
  - simpl in *. apply andb_prop in H1 as [-> H1]. simpl. by apply IH.
Qed.

Lemma flatMap_convert_toolTurnsFollow messages converted :
  flatMap (convertToLanguageModelMessage newURL) messages = Return converted →
  toolTurnsFollow None converted = true.
Proof.
  revert converted. induction messages as [|m messages IH]; intros converted.
  - by intros [= <-].
  - intros (out & rest & Hm & Hrest & ->)%flatMap_cons_Return.
    apply toolTurnsFollow_app; [|by apply IH].
    by eapply convert_Return_toolTurnsFollow.
Qed.

End Conversation.

(** X14.  The conversion of a conversation throws exactly when one of its
    messages does, and the exception is that of the first such message, with
    or without a preamble: all messages before it convert, and the messages
    after it are never looked at. *)
Theorem prompt_throws_for_first_failure :
  ∀ newURL system (messages : list CoreThreadMessage) (e : Exception),
    convertToLanguageModelPrompt newURL system messages = Throw e ↔
    ∃ before m after,
      messages = before ++ m :: after ∧
      Forall (λ m', ∃ out, convertToLanguageModelMessage newURL m' = Return out)
        before ∧
      convertToLanguageModelMessage newURL m = Throw e.
Proof.
  intros newURL system messages e. split.
  - intros Hthrow%convertPrompt_Throw_inv. by apply flatMap_Throw_first.
  - intros (before & m & after & -> & Hbefore & Hm).
    destruct (flatMap_Forall_Return _ _ Hbefore) as [p Hp].
    by eapply convertPrompt_Throw, flatMap_Throw_at.
Qed.

(** X15.  No conversation message is dropped: a converted prompt has at
    least one message per conversation message, plus one for the preamble,
    and exactly that many when no message is an assistant message. *)
Theorem prompt_length newURL system (messages : list CoreThreadMessage)
    (prompt : LanguageModelV1Prompt) :
  convertToLanguageModelPrompt newURL system messages = Return prompt →
  (preambleLength system + length messages ≤ length prompt)%nat ∧
  (Forall (λ m, role m ≠ "assistant") messages →
   length prompt = (preambleLength system + length messages)%nat).
Proof.
  intros (converted & Hconv & Hlen & _)%convertPrompt_Return_inv.
  destruct (flatMap_convert_length newURL messages converted Hconv) as [Hle Heq].
  split; [lia|]. intros Hroles. rewrite Hlen, (Heq Hroles). done.
Qed.

Lemma prompt_length_witness :
  (preambleLength (Some "be terse") + length sampleConversation
     ≤ length samplePrompt)%nat ∧
  (Forall (λ m, role m ≠ "assistant") sampleConversation →
   length samplePrompt =
     (preambleLength (Some "be terse") + length sampleConversation)%nat).
Proof.
  apply (prompt_length httpsURL (Some "be terse") sampleConversation samplePrompt).
  reflexivity.
Defined.

(** X16.  In the prompt of a whole conversation, with or without a
    preamble, every tool message comes right after an assistant message
    that holds, for each of its entries, a tool call with the same call id
    and tool name; message boundaries do not break the pairing. *)
Theorem prompt_tool_turns_follow newURL system (messages : list CoreThreadMessage)
    (prompt : LanguageModelV1Prompt) :
  convertToLanguageModelPrompt newURL system messages = Return prompt →
  toolTurnsFollow None prompt = true ∧
  ∀ i results,
    prompt !! i = Some (ToolMessage results) →
    ∃ j calls,
      i = S j ∧
      prompt !! j = Some (AssistantMessage calls) ∧
      ∀ r, r ∈ results →
           ∃ a, ToolCall (resultCallId r) (resultToolName r) a ∈ calls.
Proof.
  intros (converted & Hconv & _ & ->)%convertPrompt_Return_inv.
  pose proof (flatMap_convert_toolTurnsFollow newURL messages converted Hconv) as Hc.
  match goal with |- ?P = true ∧ _ => assert (Hok : P = true) end.
  { destruct system; [|done]. simpl. by apply toolTurnsFollow_any_prev. }
  split; [done|]. intros i results Hi.
  destruct (toolTurnsFollow_lookup _ _ _ _ Hok Hi) as (calls & Hprev & Hres).
  destruct i as [|j]; [done|].
  exists j, calls. repeat split; [done|].
  intros r Hr. apply resolves_elem_of.
  rewrite forallb_forall in Hres. by apply Hres, list_elem_of_In.
Qed.

Lemma prompt_tool_turns_follow_witness :
  toolTurnsFollow None samplePrompt = true ∧
  ∀ i results,
    samplePrompt !! i = Some (ToolMessage results) →
    ∃ j calls,
      i = S j ∧
      samplePrompt !! j = Some (AssistantMessage calls) ∧
      ∀ r, r ∈ results →
           ∃ a, ToolCall (resultCallId r) (resultToolName r) a ∈ calls.
Proof.
  apply (prompt_tool_turns_follow httpsURL (Some "be terse") sampleConversation
           samplePrompt).
  reflexivity.
Defined.

(** ** What reaches the backend *)

Lemma streamMessageCallOptions_Return {Settings : Type} newURL system messages
    tools toolChoice (options : Settings) (call : CallOptions Settings) :
  streamMessageCallOptions newURL system messages tools toolChoice options
    = Return call →
  convertToLanguageModelPrompt newURL system messages = Return (prompt call) ∧
  inputFormat call = "messages" ∧
  mode call = {| modeType := "regular";
                 modeTools := spreadIfTruthy tools;
                 modeToolChoice := spreadIfTruthy toolChoice |} ∧
  callSettings call = options.
Proof.
  unfold streamMessageCallOptions.
  destruct (convertToLanguageModelPrompt newURL system messages) as [p|e]; [|done].
  by intros [= <-].
Qed.

Lemma spreadIfTruthy_Some (v : option JSValue) (w : JSValue) :
  spreadIfTruthy v = Some w ↔ v = Some w ∧ ToBoolean w = true.
Proof.
  unfold spreadIfTruthy, truthy. destruct v as [u|]; [|by split; [|intros []]].
  destruct (ToBoolean u) eqn:Hu; split.
  - by intros [= <-].
  - by intros [? _].
  - done.
  - intros [[= <-] ?]. congruence.
Qed.

(** X17.  Whatever call [POST] hands to the backend carries the converted
    prompt of the request, in which every tool message follows the
    assistant message with its calls; it asks for regular generation on
    structured messages, never sets a tool choice, passes the abort signal
    of the request, and has a tools field exactly when the tools of the
    request are truthy: an array, even an empty one, is forwarded, while
    absent or [null] tools leave the field out. *)
Theorem backend_call_of_POST {AbortSignal : Type} newURL (body : RequestBody)
    (signal : AbortSignal) (call : CallOptions AbortSignal) :
  POSTCallOptions newURL body signal = Return call →
  convertToLanguageModelPrompt newURL (bodySystem body) (bodyMessages body)
    = Return (prompt call) ∧
  toolTurnsFollow None (prompt call) = true ∧
  inputFormat call = "messages" ∧
  modeType (mode call) = "regular" ∧
  modeToolChoice (mode call) = None ∧
  callSettings call = signal ∧
  (∀ v, modeTools (mode call) = Some v ↔ bodyTools body = Some v ∧ ToBoolean v = true) ∧
  (∀ items, bodyTools body = Some (JArray items) →
            modeTools (mode call) = Some (JArray items)).
Proof.
  intros (Hprompt & Hformat & Hmode & Hsettings)%streamMessageCallOptions_Return.
  rewrite Hmode. simpl. split_and!; try done.
  - apply convertPrompt_Return_inv in Hprompt as (converted & Hconv & _ & Hp).
    rewrite Hp.
    pose proof (flatMap_convert_toolTurnsFollow newURL _ converted Hconv) as Hc.
    destruct (bodySystem body); [|done]. simpl. by apply toolTurnsFollow_any_prev.
  - intros v. apply spreadIfTruthy_Some.
  - by intros items ->.
Qed.

Lemma backend_call_of_POST_witness :
  convertToLanguageModelPrompt httpsURL (bodySystem sampleBody) (bodyMessages sampleBody)
    = Return (prompt sampleCall) ∧
  toolTurnsFollow None (prompt sampleCall) = true ∧
  inputFormat sampleCall = "messages" ∧
  modeType (mode sampleCall) = "regular" ∧
  modeToolChoice (mode sampleCall) = None ∧
  callSettings sampleCall = tt ∧
  (∀ v, modeTools (mode sampleCall) = Some v ↔
        bodyTools sampleBody = Some v ∧ ToBoolean v = true) ∧
  (∀ items, bodyTools sampleBody = Some (JArray items) →
            modeTools (mode sampleCall) = Some (JArray items)).
Proof.
  apply (backend_call_of_POST httpsURL sampleBody tt sampleCall).
  reflexivity.
Defined.
